(** * keras_ncf_main: the Keras driver of the NCF recommendation model

    A shallow embedding of [official/recommendation/keras_ncf_main.py].

    The driver is glue code: it reads the command-line flags, asks the sibling
    modules ([movielens], [ncf_main], [data_pipeline], [data_preprocessing],
    [neumf_model], [distribution_utils], [model_helpers]) and the framework
    ([tf], [tf.keras], [np]) for objects and hands them to one another.  The
    embedding keeps that shape:

    - the imported modules are a record [Libs] of opaque types and functions;
    - [run_ncf] is a program in a small state-and-exception monad whose store
      holds the local variables of the function and the chronological trace
      of the calls it makes into the imported modules;
    - [_logitfy], the only function of the file that builds a computation of
      its own, is embedded on tensor values, whose elements are IEEE-754
      binary32 numbers ([SpecFloat] of the standard library). *)

From Stdlib Require Import ZArith Bool List SpecFloat.
From stdpp Require Import base option gmap strings list.

Local Open Scope Z_scope.

(** ** Python integers and dictionaries *)

(** The exceptions that the statements of [run_ncf] raise themselves.  A call
    into an imported module is taken to return: an exception raised inside a
    library call is not in the embedding, so a statement on how a run ends
    speaks of the exceptions of [run_ncf]'s own statements. *)
Inductive exn : Type :=
| ZeroDivisionError
| KeyError (key : string)
| AssertionError
| UnboundLocalError (name : string).

(** [a // b] on Python integers: floor division, raising on a zero divisor.
    [Z.div] rounds towards minus infinity, like Python. *)
Definition py_floordiv (a b : Z) : exn + Z :=
  if b =? 0 then inl ZeroDivisionError else inr (a / b).

(** [a % b] on Python integers: the remainder has the sign of the divisor,
    as [Z.modulo] has. *)
Definition py_mod (a b : Z) : exn + Z :=
  if b =? 0 then inl ZeroDivisionError else inr (a mod b).

(** [d[k]] *)
Definition dict_getitem {V : Type} (d : gmap string V) (k : string) : exn + V :=
  match d !! k with
  | Some v => inr v
  | None => inl (KeyError k)
  end.

(** Truth value of an integer, for [not x]. *)
Definition py_not_int (x : Z) : bool := x =? 0.

(** ** Tensor values and Keras layers *)

Module Keras.

(** Elements of a float tensor: binary32, the default [floatx] of Keras. *)
Definition float32_mul : spec_float -> spec_float -> spec_float :=
  SFmul 24 128.

(** The Python constant [0] converted to the dtype of the tensor it is
    multiplied with. *)
Definition float_of_int_0 : spec_float := S754_zero false.

(** [x == 0.0] on floats: true of both signed zeros, false of NaN. *)
Definition float_is_zero (x : spec_float) : bool := SFeqb x float_of_int_0.


(** A float tensor of rank 2, [(batch, width)], as the list of its rows;
    an integer tensor of the same rank for the ids that are fed. *)
Definition Tensor : Type := list (list spec_float).
Definition IdTensor : Type := list (list Z).

(** What is fed to a model: one tensor per input layer, in order. *)
Definition Feed : Type := list IdTensor.

Inductive dtype : Type := int32 | float32.

(** [tf.keras.layers.Input(shape=..., batch_size=..., name=..., dtype=...)] *)
Record InputLayer : Type := Input {
  shape : list Z;
  batch_size : Z;
  name : string;
  input_dtype : dtype
}.

(** A symbolic tensor of the functional API: its static shape, that is the
    batch dimension, unknown ([None]) unless the input layers fix it
    ([t.shape[0].value]), and the second dimension ([t.shape[1].value]); and
    the value it takes under each feed ([None] when the graph fails at run
    time).  Where the static shape is defined, the value has that shape:
    TensorFlow checks what is fed against the input layers. *)
Record SymTensor : Type := {
  static_batch : option Z;
  static_width : nat;
  eval : Feed -> option Tensor
}.

(** Whether the static shape is fully defined. *)
Definition static_shape_known (t : SymTensor) : bool :=
  match static_batch t with
  | Some _ => true
  | None => false
  end.

(** [tf.keras.Model(inputs=..., outputs=...)] *)
Record Model : Type := {
  model_inputs : list InputLayer;
  model_outputs : SymTensor
}.

(** [m(inputs)]: the model applied to its input layers. *)
Definition call (m : Model) (inputs : list InputLayer) : SymTensor :=
  model_outputs m.



(** One element of [t * c], for a tensor [t] and a Python number [c].  The
    graph optimizer folds a product by a constant zero into a constant of
    zeros when the static shape of the product is fully defined: the element
    is then [+0.0] whatever [x] is.  Otherwise the kernel multiplies in
    binary32. *)
Definition times (shape_known : bool) (c x : spec_float) : spec_float :=
  if shape_known && float_is_zero c then S754_zero false
  else float32_mul x c.

(** [t * c] *)
Definition mul_scalar (t : SymTensor) (c : spec_float) : SymTensor :=
  {| static_batch := static_batch t;
     static_width := static_width t;
     eval := fun feed =>
       map (map (times (static_shape_known t) c)) <$> eval t feed |}.

(** [tf.keras.layers.Lambda(f)(t)]: the layer of a Python function on
    tensors. *)
Definition Lambda (f : SymTensor -> SymTensor) (t : SymTensor) : SymTensor :=
  f t.

(** Two values side by side along axis 1; the batch sizes must agree. *)
Fixpoint concat_rows (a b : Tensor) : option Tensor :=
  match a, b with
  | [], [] => Some []
  | ra :: a', rb :: b' => (fun rest => (ra ++ rb) :: rest) <$> concat_rows a' b'
  | _, _ => None
  end.

Fixpoint concat_values (vs : list Tensor) : option Tensor :=
  match vs with
  | [] => None
  | [v] => Some v
  | v :: rest => concat_values rest ≫= concat_rows v
  end.

Fixpoint eval_all (ts : list SymTensor) (feed : Feed) : option (list Tensor) :=
  match ts with
  | [] => Some []
  | t :: rest =>
      match eval t feed, eval_all rest feed with
      | Some v, Some vs => Some (v :: vs)
      | _, _ => None
      end
  end.

(** [tf.keras.layers.Concatenate(axis=1)(ts)] *)
Definition Concatenate_axis1 (ts : list SymTensor) : SymTensor :=
  {| static_batch := hd None (map static_batch ts);
     static_width := foldr (fun t n => (static_width t + n)%nat) 0%nat ts;
     eval := fun feed => eval_all ts feed ≫= concat_values |}.

(** [tf.keras.layers.Reshape(target_shape=(n,))(t)] on a rank-2 tensor:
    every example must hold exactly [n] elements, and keeps them in order. *)
Definition Reshape (n : nat) (t : SymTensor) : SymTensor :=
  {| static_batch := static_batch t;
     static_width := n;
     eval := fun feed =>
       eval t feed ≫= fun v =>
         if forallb (fun row => Nat.eqb (length row) n) v
         then Some v else None |}.

End Keras.

(** ** [_logitfy] *)

Definition _logitfy (inputs : list Keras.InputLayer) (base_model : Keras.Model)
  : Keras.Model :=
  let logits := Keras.call base_model inputs in
  let zero_tensor :=
    Keras.Lambda (fun x => Keras.mul_scalar x Keras.float_of_int_0) logits in
  let to_concatenate := [zero_tensor; logits] in
  let concat_layer := Keras.Concatenate_axis1 to_concatenate in
  let reshape_layer :=
    Keras.Reshape (Keras.static_width concat_layer) concat_layer in
  {| Keras.model_inputs := inputs; Keras.model_outputs := reshape_layer |}.

(** ** The command-line flags read by the driver *)

Record Flags : Type := {
  download_if_missing : bool;
  use_synthetic_data : bool;
  dataset : string;
  data_dir : string;
  seed : option Z;
  train_epochs : Z;
  epochs_between_evals : Z;
  batch_size : Z;
  ml_perf : bool
}.

(** ** The imported modules

    Everything the driver imports and uses, as opaque types and functions.
    [params] is a Python [dict] with string keys; the driver reads and writes
    integer entries only. *)

Record Libs : Type := {
  (** objects handed around by the driver *)
  Producer : Type;
  NCFDataset : Type;
  Dataset : Type;
  Optimizer : Type;
  Strategy : Type;
  GraphTensor : Type;
  Callback : Type;
  (** attributes read by the driver *)
  train_batches_per_epoch : Producer -> Z;
  eval_batches_per_epoch : Producer -> Z;
  NCFDataset_num_users : NCFDataset -> Z;
  NCFDataset_num_items : NCFDataset -> Z;
  (** [ncf_main] *)
  parse_flags : Flags -> gmap string Z;
  (** [data_pipeline] *)
  DummyConstructor : Producer;
  (** [data_preprocessing] *)
  DATASET_TO_NUM_USERS_AND_ITEMS : gmap string (Z * Z);
  SYNTHETIC_BATCHES_PER_EPOCH : Z;
  instantiate_pipeline :
    string -> string -> option Z -> bool -> bool -> gmap string Z ->
    NCFDataset * Producer;
  make_input_fn : Producer -> bool -> bool -> gmap string Z -> Dataset;
  (** [tf.data.Dataset.repeat] *)
  repeat : Dataset -> Z -> Dataset;
  (** [neumf_model] *)
  construct_model_keras :
    Keras.InputLayer -> Keras.InputLayer -> gmap string Z -> Keras.Model;
  get_optimizer : gmap string Z -> Optimizer;
  (** [distribution_utils] *)
  get_distribution_strategy : Z -> Strategy;
  (** [tf] *)
  tf_cast : GraphTensor -> Keras.dtype -> GraphTensor;
  tf_reshape : GraphTensor -> list Z -> GraphTensor;
  sparse_softmax_cross_entropy : GraphTensor -> GraphTensor -> GraphTensor
}.

Section Driver.

Context (L : Libs).

(** ** Calls into the imported modules, and executed [assert] statements *)

(** The arguments of [keras_model.compile(loss=..., optimizer=...,
    metrics=..., distribute=...)]. *)
Record CompileArgs : Type := {
  compile_model : Keras.Model;
  compile_loss : GraphTensor L -> GraphTensor L -> GraphTensor L;
  compile_optimizer : Optimizer L;
  compile_metrics : list string;
  compile_distribute : option (Strategy L)
}.

(** The arguments of [keras_model.fit(x, epochs=..., steps_per_epoch=...,
    callbacks=..., verbose=...)]. *)
Record FitArgs : Type := {
  fit_model : Keras.Model;
  fit_x : Dataset L;
  fit_epochs : Z;
  fit_steps_per_epoch : Z;
  fit_callbacks : list (Callback L);
  fit_verbose : Z
}.

(** The arguments of [keras_model.evaluate(x, steps=...)]. *)
Record EvaluateArgs : Type := {
  evaluate_model : Keras.Model;
  evaluate_x : Dataset L;
  evaluate_steps : Z
}.

Inductive event : Type :=
| movielens_download (dataset data_dir : string)
| np_random_seed (seed : Z)
| ncf_main_parse_flags (flags : Flags)
| data_pipeline_DummyConstructor
| data_preprocessing_instantiate_pipeline
    (dataset data_dir : string) (num_data_readers : option Z)
    (match_mlperf deterministic : bool) (params : gmap string Z)
| assert_stmt (cond : bool)
| producer_start (producer : Producer L)
| model_helpers_apply_clean (flags : Flags)
| data_preprocessing_make_input_fn
    (producer : Producer L) (is_training use_tpu : bool)
| keras_layers_Input (layer : Keras.InputLayer)
| neumf_model_construct_model_keras
    (user_input item_input : Keras.InputLayer) (params : gmap string Z)
| model_summary (model : Keras.Model)
| tf_logging_info (msg : string)
| neumf_model_get_optimizer (params : gmap string Z)
| distribution_utils_get_distribution_strategy (num_gpus : Z)
| model_compile (args : CompileArgs)
| print (msg : string) (arg : option Z)
| train_input_fn_call (params : gmap string Z)
| dataset_repeat (d : Dataset L) (count : Z)
| model_fit (args : FitArgs)
| model_evaluate (args : EvaluateArgs).

(** What a trace holds of each kind of call, in order. *)
Definition download_calls (tr : list event) : list (string * string) :=
  omap (fun e => match e with
                 | movielens_download d dd => Some (d, dd)
                 | _ => None
                 end) tr.

Definition assert_stmts (tr : list event) : list bool :=
  omap (fun e => match e with assert_stmt c => Some c | _ => None end) tr.

Definition strategy_calls (tr : list event) : list Z :=
  omap (fun e => match e with
                 | distribution_utils_get_distribution_strategy n => Some n
                 | _ => None
                 end) tr.

Definition compile_calls (tr : list event) : list CompileArgs :=
  omap (fun e => match e with model_compile a => Some a | _ => None end) tr.

Definition fit_calls (tr : list event) : list FitArgs :=
  omap (fun e => match e with model_fit a => Some a | _ => None end) tr.

Definition evaluate_calls (tr : list event) : list EvaluateArgs :=
  omap (fun e => match e with model_evaluate a => Some a | _ => None end) tr.

(** ** The store: local variables of [run_ncf] and the trace

    The names that are assigned on both branches of line 89, or more than
    once, live in the store, unbound ([None]) until first assigned; names
    assigned once on a straight line are bound by the monad. *)

Record store : Type := Store {
  params : option (gmap string Z);
  total_training_cycle : option Z;
  producer : option (Producer L);
  num_users : option Z;
  num_items : option Z;
  num_train_steps : option Z;
  num_eval_steps : option Z;
  trace : list event
}.

Definition empty_store : store :=
  Store None None None None None None None [].

Definition M (A : Type) : Type := store -> store * (exn + A).

Definition ret {A} (a : A) : M A := fun s => (s, inr a).

Definition bind {A B} (m : M A) (k : A -> M B) : M B :=
  fun s =>
    match m s with
    | (s', inr a) => k a s'
    | (s', inl e) => (s', inl e)
    end.

Definition lift {A} (r : exn + A) : M A := fun s => (s, r).

Definition read {A} (name : string) (field : store -> option A) : M A :=
  fun s =>
    match field s with
    | Some a => (s, inr a)
    | None => (s, inl (UnboundLocalError name))
    end.

Definition write (upd : store -> store) : M unit := fun s => (upd s, inr tt).

Definition emit (e : event) : M unit :=
  write (fun s =>
    Store (params s) (total_training_cycle s) (producer s) (num_users s)
          (num_items s) (num_train_steps s) (num_eval_steps s)
          (trace s ++ [e])).

Definition set_params (v : gmap string Z) : M unit :=
  write (fun s =>
    Store (Some v) (total_training_cycle s) (producer s) (num_users s)
          (num_items s) (num_train_steps s) (num_eval_steps s) (trace s)).

Definition set_total_training_cycle (v : Z) : M unit :=
  write (fun s =>
    Store (params s) (Some v) (producer s) (num_users s)
          (num_items s) (num_train_steps s) (num_eval_steps s) (trace s)).

Definition set_producer (v : Producer L) : M unit :=
  write (fun s =>
    Store (params s) (total_training_cycle s) (Some v) (num_users s)
          (num_items s) (num_train_steps s) (num_eval_steps s) (trace s)).

Definition set_num_users (v : Z) : M unit :=
  write (fun s =>
    Store (params s) (total_training_cycle s) (producer s) (Some v)
          (num_items s) (num_train_steps s) (num_eval_steps s) (trace s)).

Definition set_num_items (v : Z) : M unit :=
  write (fun s =>
    Store (params s) (total_training_cycle s) (producer s) (num_users s)
          (Some v) (num_train_steps s) (num_eval_steps s) (trace s)).

Definition set_num_train_steps (v : Z) : M unit :=
  write (fun s =>
    Store (params s) (total_training_cycle s) (producer s) (num_users s)
          (num_items s) (Some v) (num_eval_steps s) (trace s)).

Definition set_num_eval_steps (v : Z) : M unit :=
  write (fun s =>
    Store (params s) (total_training_cycle s) (producer s) (num_users s)
          (num_items s) (num_train_steps s) (Some v) (trace s)).

Notation "x <- c1 ;; c2" := (bind c1 (fun x => c2))
  (at level 100, c1 at next level, right associativity).
Notation "c1 ;; c2" := (bind c1 (fun _ => c2))
  (at level 100, right associativity).

(** [assert cond] *)
Definition assert (cond : bool) : M unit :=
  emit (assert_stmt cond) ;;
  if cond then ret tt else lift (inl AssertionError).

(** ** The loss closure of [run_ncf] (lines 130-139) *)

Definition softmax_crossentropy_with_logits (FLAGS : Flags)
    (y_true y_pred : GraphTensor L) : GraphTensor L :=
  let y_true := tf_cast L y_true Keras.int32 in
  sparse_softmax_cross_entropy L
    (tf_reshape L y_true [batch_size FLAGS])
    (tf_reshape L y_pred [batch_size FLAGS; 2]).

(** ** [run_ncf], lines 80-109: flags, data and producer *)

Definition run_ncf_data (FLAGS : Flags) : M unit :=
  (if download_if_missing FLAGS && negb (use_synthetic_data FLAGS)
   then emit (movielens_download (dataset FLAGS) (data_dir FLAGS))
   else ret tt) ;;
  (match seed FLAGS with
   | Some s => emit (np_random_seed s)
   | None => ret tt
   end) ;;
  emit (ncf_main_parse_flags FLAGS) ;;
  set_params (parse_flags L FLAGS) ;;
  q <- lift (py_floordiv (train_epochs FLAGS) (epochs_between_evals FLAGS)) ;;
  set_total_training_cycle q ;;
  (if use_synthetic_data FLAGS then
     emit data_pipeline_DummyConstructor ;;
     set_producer (DummyConstructor L) ;;
     ui <- lift (dict_getitem (DATASET_TO_NUM_USERS_AND_ITEMS L)
                              (dataset FLAGS)) ;;
     set_num_users (fst ui) ;;
     set_num_items (snd ui) ;;
     set_num_train_steps (SYNTHETIC_BATCHES_PER_EPOCH L) ;;
     set_num_eval_steps (SYNTHETIC_BATCHES_PER_EPOCH L)
   else
     p <- read "params" params ;;
     emit (data_preprocessing_instantiate_pipeline
             (dataset FLAGS) (data_dir FLAGS) None (ml_perf FLAGS)
             (bool_decide (seed FLAGS <> None)) p) ;;
     let '(ncf_dataset, pr) :=
       instantiate_pipeline L (dataset FLAGS) (data_dir FLAGS) None
         (ml_perf FLAGS) (bool_decide (seed FLAGS <> None)) p in
     set_producer pr ;;
     set_num_users (NCFDataset_num_users L ncf_dataset) ;;
     set_num_items (NCFDataset_num_items L ncf_dataset) ;;
     pr <- read "producer" producer ;;
     p <- read "params" params ;;
     bps <- lift (dict_getitem p "batches_per_step") ;;
     n <- lift (py_floordiv (train_batches_per_epoch L pr) bps) ;;
     set_num_train_steps n ;;
     pr <- read "producer" producer ;;
     p <- read "params" params ;;
     bps <- lift (dict_getitem p "batches_per_step") ;;
     n <- lift (py_floordiv (eval_batches_per_epoch L pr) bps) ;;
     set_num_eval_steps n ;;
     pr <- read "producer" producer ;;
     p <- read "params" params ;;
     bps <- lift (dict_getitem p "batches_per_step") ;;
     r <- lift (py_mod (train_batches_per_epoch L pr) bps) ;;
     assert (py_not_int r) ;;
     pr <- read "producer" producer ;;
     p <- read "params" params ;;
     bps <- lift (dict_getitem p "batches_per_step") ;;
     r <- lift (py_mod (eval_batches_per_epoch L pr) bps) ;;
     assert (py_not_int r)) ;;
  pr <- read "producer" producer ;;
  emit (producer_start pr).

(** ** [run_ncf], lines 111-161: model, compilation and fit

    [params] is one dictionary object: the entries written on line 111 are
    seen by every later use of the name. *)

Definition run_ncf_train (FLAGS : Flags) : M unit :=
  nu <- read "num_users" num_users ;;
  ni <- read "num_items" num_items ;;
  p <- read "params" params ;;
  set_params (<["num_items" := ni]> (<["num_users" := nu]> p)) ;;
  emit (model_helpers_apply_clean FLAGS) ;;
  pr <- read "producer" producer ;;
  emit (data_preprocessing_make_input_fn pr true false) ;;
  let train_input_fn := make_input_fn L pr true false in
  let user_input :=
    Keras.Input [1] (batch_size FLAGS) "user_id" Keras.int32 in
  emit (keras_layers_Input user_input) ;;
  let item_input :=
    Keras.Input [1] (batch_size FLAGS) "item_id" Keras.int32 in
  emit (keras_layers_Input item_input) ;;
  p <- read "params" params ;;
  emit (neumf_model_construct_model_keras user_input item_input p) ;;
  let base_model := construct_model_keras L user_input item_input p in
  let keras_model := _logitfy [user_input; item_input] base_model in
  emit (model_summary keras_model) ;;
  emit (tf_logging_info "Using Keras instead of Estimator") ;;
  p <- read "params" params ;;
  emit (neumf_model_get_optimizer p) ;;
  let opt := get_optimizer L p in
  emit (distribution_utils_get_distribution_strategy 1) ;;
  let strategy := get_distribution_strategy L 1 in
  emit (model_compile
          {| compile_model := keras_model;
             compile_loss := softmax_crossentropy_with_logits FLAGS;
             compile_optimizer := opt;
             compile_metrics := ["accuracy"%string];
             compile_distribute := None |}) ;;
  pr <- read "producer" producer ;;
  p <- read "params" params ;;
  bps <- lift (dict_getitem p "batches_per_step") ;;
  n <- lift (py_floordiv (train_batches_per_epoch L pr) bps) ;;
  set_num_train_steps n ;;
  emit (print ">>>>>>>>>>> zhenzheng epochs: " (Some (train_epochs FLAGS))) ;;
  p <- read "params" params ;;
  emit (train_input_fn_call p) ;;
  emit (dataset_repeat (train_input_fn p) (train_epochs FLAGS)) ;;
  let train_input_dataset :=
    repeat L (train_input_fn p) (train_epochs FLAGS) in
  emit (print ">>>>>>>>>>> zhenzheng before fit" None) ;;
  n <- read "num_train_steps" num_train_steps ;;
  emit (model_fit
          {| fit_model := keras_model;
             fit_x := train_input_dataset;
             fit_epochs := train_epochs FLAGS;
             fit_steps_per_epoch := n;
             fit_callbacks := [];
             fit_verbose := 0 |}) ;;
  emit (print ">>>>>>>>>>> zhenzheng done fit" None).

(** ** [run_ncf] *)

Definition run_ncf (FLAGS : Flags) : M unit :=
  run_ncf_data FLAGS ;; run_ncf_train FLAGS.

(** One invocation: the store it leaves (at the return or at the point
    where the exception was raised) and how it ended. *)
Definition final_store (FLAGS : Flags) : store :=
  fst (run_ncf FLAGS empty_store).

Definition outcome (FLAGS : Flags) : exn + unit :=
  snd (run_ncf FLAGS empty_store).

(** The store when line 109 has run (or the exception before it). *)
Definition data_store (FLAGS : Flags) : store :=
  fst (run_ncf_data FLAGS empty_store).

End Driver.

Arguments empty_store {L}.
Arguments params {L}.
Arguments producer {L}.
Arguments num_users {L}.
Arguments num_items {L}.
Arguments num_train_steps {L}.
Arguments num_eval_steps {L}.
Arguments total_training_cycle {L}.
Arguments trace {L}.
Arguments download_calls {L}.
Arguments assert_stmts {L}.
Arguments strategy_calls {L}.
Arguments compile_calls {L}.
Arguments fit_calls {L}.
Arguments evaluate_calls {L}.
Arguments compile_model {L}.
Arguments compile_loss {L}.
Arguments compile_optimizer {L}.
Arguments compile_metrics {L}.
Arguments compile_distribute {L}.
Arguments fit_model {L}.
Arguments fit_x {L}.
Arguments fit_epochs {L}.
Arguments fit_steps_per_epoch {L}.
Arguments fit_callbacks {L}.
Arguments fit_verbose {L}.

(** ** A concrete instance of the imported modules

    Symbolic stand-ins on which the driver can be run: a producer is the pair
    of its two batch counts, a dataset and a graph tensor are the expression
    that built them, and the base network answers one constant logit per
    example. *)

Module Sample.

Inductive dataset_expr : Type :=
| from_input_fn (producer : Z * Z) (is_training use_tpu : bool)
    (params : gmap string Z)
| repeated (d : dataset_expr) (count : Z).

Inductive tensor_expr : Type :=
| placeholder (name : string)
| cast (t : tensor_expr) (dt : Keras.dtype)
| reshape (t : tensor_expr) (shape : list Z)
| sparse_xent (labels logits : tensor_expr).

(** 1.5 and plus infinity in binary32. *)
Definition one_and_half : spec_float := S754_finite false 12582912 (-23).

(** A network answering [logit] for every example fed to its first input;
    the batch dimension of its output is that of its first input layer, and
    is unknown when it is built on none. *)
Definition constant_model (inputs : list Keras.InputLayer)
    (logit : spec_float) : Keras.Model :=
  {| Keras.model_inputs := inputs;
     Keras.model_outputs :=
       {| Keras.static_batch :=
            match inputs with
            | i :: _ => Some (Keras.batch_size i)
            | [] => None
            end;
          Keras.static_width := 1;
          Keras.eval := fun feed =>
            Some (map (fun _ => [logit]) (hd [] feed)) |} |}.

(** The imported modules, for a pipeline whose producer has [tb] training
    and [eb] evaluation batches per epoch and flags parsed to
    [batches_per_step = bps]. *)
Definition libs (tb eb bps : Z) : Libs :=
  {| Producer := Z * Z;
     NCFDataset := Z * Z;
     Dataset := dataset_expr;
     Optimizer := gmap string Z;
     Strategy := Z;
     GraphTensor := tensor_expr;
     Callback := unit;
     train_batches_per_epoch := fst;
     eval_batches_per_epoch := snd;
     NCFDataset_num_users := fst;
     NCFDataset_num_items := snd;
     parse_flags := fun _ => {[ "batches_per_step"%string := bps ]};
     DummyConstructor := (tb, eb);
     DATASET_TO_NUM_USERS_AND_ITEMS :=
       {[ "ml-1m"%string := (6040, 3706);
          "ml-20m"%string := (138493, 26744) ]};
     SYNTHETIC_BATCHES_PER_EPOCH := 2000;
     instantiate_pipeline := fun _ _ _ _ _ _ => ((6040, 3706), (tb, eb));
     make_input_fn := from_input_fn;
     repeat := repeated;
     construct_model_keras := fun u i _ => constant_model [u; i] one_and_half;
     get_optimizer := fun p => p;
     get_distribution_strategy := fun n => n;
     tf_cast := cast;
     tf_reshape := reshape;
     sparse_softmax_cross_entropy := sparse_xent |}.

(** A pipeline whose 6 training and 4 evaluation batches per epoch are
    multiples of [batches_per_step = 2], and one with 3 training batches. *)
Definition even_libs : Libs := libs 6 4 2.
Definition odd_libs : Libs := libs 3 4 2.

(** [--dataset ml-1m --train_epochs 2 --batch_size 4], with or without
    [--use_synthetic_data]. *)
Definition flags (synthetic : bool) : Flags :=
  {| download_if_missing := true;
     use_synthetic_data := synthetic;
     dataset := "ml-1m";
     data_dir := "/tmp/movielens-data";
     seed := None;
     train_epochs := 2;
     epochs_between_evals := 1;
     batch_size := 4;
     ml_perf := false |}.

(** Two examples fed to [user_id] and [item_id]. *)
Definition feed : Keras.Feed := [[[1]; [2]]; [[10]; [20]]].

End Sample.

(** ** Further observations of a trace *)

Section Observers.

Context {L : Libs}.

(** The arguments of [data_preprocessing.instantiate_pipeline(dataset=...,
    data_dir=..., num_data_readers=..., match_mlperf=..., deterministic=...,
    params=...)]. *)
Record PipelineArgs : Type := {
  pipeline_dataset : string;
  pipeline_data_dir : string;
  pipeline_num_data_readers : option Z;
  pipeline_match_mlperf : bool;
  pipeline_deterministic : bool;
  pipeline_params : gmap string Z
}.

Definition seed_calls (tr : list (event L)) : list Z :=
  omap (fun e => match e with np_random_seed _ s => Some s | _ => None end) tr.

Definition pipeline_calls (tr : list (event L)) : list PipelineArgs :=
  omap (fun e => match e with
                 | data_preprocessing_instantiate_pipeline _ d dd r m det p =>
                     Some {| pipeline_dataset := d;
                             pipeline_data_dir := dd;
                             pipeline_num_data_readers := r;
                             pipeline_match_mlperf := m;
                             pipeline_deterministic := det;
                             pipeline_params := p |}
                 | _ => None
                 end) tr.

Definition dummy_constructor_calls (tr : list (event L)) : list unit :=
  omap (fun e => match e with
                 | data_pipeline_DummyConstructor _ => Some tt
                 | _ => None
                 end) tr.

Definition start_calls (tr : list (event L)) : list (Producer L) :=
  omap (fun e => match e with producer_start _ pr => Some pr | _ => None end) tr.

Definition input_fn_calls (tr : list (event L))
  : list (Producer L * bool * bool) :=
  omap (fun e => match e with
                 | data_preprocessing_make_input_fn _ pr t u => Some (pr, t, u)
                 | _ => None
                 end) tr.

Definition construct_model_calls (tr : list (event L))
  : list (Keras.InputLayer * Keras.InputLayer * gmap string Z) :=
  omap (fun e => match e with
                 | neumf_model_construct_model_keras _ u i p => Some (u, i, p)
                 | _ => None
                 end) tr.



(** The three stages of a run, as they show in a trace. *)
Inductive milestone : Type := started | compiled | fitted.

Definition milestones (tr : list (event L)) : list milestone :=
  omap (fun e => match e with
                 | producer_start _ _ => Some started
                 | model_compile _ _ => Some compiled
                 | model_fit _ _ => Some fitted
                 | _ => None
                 end) tr.

End Observers.

(** ** [main] (lines 58-62)

    [with logger.benchmark_context(FLAGS), mlperf_helper.LOGGER(...)] is the
    nesting of two [with] statements.  A context manager is entered, the body
    runs, and [__exit__] is called with the exception of the body, if there is
    one; a true answer of [__exit__] swallows the exception.  What the two
    managers answer is theirs to decide: it is a field of [Contexts], as is
    the directory of the file, [os.path.split(os.path.abspath(__file__))[0]]. *)

Record Contexts : Type := {
  benchmark_context_exit_answer : option exn -> bool;
  LOGGER_exit_answer : option exn -> bool;
  ncf_root : string
}.

Section Main.

Context (L : Libs) (C : Contexts).

Inductive main_event : Type :=
| benchmark_context_enter (flags : Flags)
| LOGGER_enter (enable : bool)
| mlperf_helper_set_ncf_root (path : string)
| run_ncf_event (e : event L)
| LOGGER_exit (exc : option exn)
| benchmark_context_exit (exc : option exn).

(** The exception a block ends with, as [__exit__] receives it. *)
Definition raised (o : exn + unit) : option exn :=
  match o with
  | inl e => Some e
  | inr _ => None
  end.

(** [with manager: body], given what the body did. *)
Definition with_statement (enter : main_event)
    (exit_event : option exn -> main_event) (answer : option exn -> bool)
    (body : list main_event * (exn + unit)) : list main_event * (exn + unit) :=
  let '(tr, o) := body in
  (enter :: tr ++ [exit_event (raised o)],
   match o with
   | inl e => if answer (Some e) then inr tt else inl e
   | inr _ => inr tt
   end).

(** [main(_)]; [output_ml_perf_compliance_logging] is the one flag that
    [run_ncf] does not read. *)
Definition main (FLAGS : Flags) (output_ml_perf_compliance_logging : bool)
  : list main_event * (exn + unit) :=
  with_statement (benchmark_context_enter FLAGS) benchmark_context_exit
    (benchmark_context_exit_answer C)
    (with_statement (LOGGER_enter output_ml_perf_compliance_logging)
       LOGGER_exit (LOGGER_exit_answer C)
       (let '(s, o) := run_ncf L FLAGS empty_store in
        (mlperf_helper_set_ncf_root (ncf_root C)
           :: map run_ncf_event (trace s), o))).

(** The calls of [run_ncf] made inside [main], and the context-manager events
    around them. *)
Definition run_ncf_events (tr : list main_event) : list (event L) :=
  omap (fun e => match e with run_ncf_event e' => Some e' | _ => None end) tr.

Definition context_events (tr : list main_event) : list main_event :=
  omap (fun e => match e with
                 | run_ncf_event _ | mlperf_helper_set_ncf_root _ => None
                 | _ => Some e
                 end) tr.

End Main.

Arguments raised o : simpl nomatch.

(** Context managers for the sample runs: the benchmark context lets every
    exception through, the compliance logger swallows assertion failures
    only. *)
Module SampleMain.

Definition contexts : Contexts :=
  {| benchmark_context_exit_answer := fun _ => false;
     LOGGER_exit_answer := fun exc =>
       match exc with
       | Some AssertionError => true
       | _ => false
       end;
     ncf_root := "/models/official/recommendation" |}.

Definition strict_contexts : Contexts :=
  {| benchmark_context_exit_answer := fun _ => false;
     LOGGER_exit_answer := fun _ => false;
     ncf_root := "/models/official/recommendation" |}.

(** A flag record with [--epochs_between_evals 0], one with [--seed 7] and
    one with an unknown dataset name. *)
Definition flags_zero_evals (synthetic : bool) : Flags :=
  {| download_if_missing := true;
     use_synthetic_data := synthetic;
     dataset := "ml-1m";
     data_dir := "/tmp/movielens-data";
     seed := None;
     train_epochs := 2;
     epochs_between_evals := 0;
     batch_size := 4;
     ml_perf := false |}.

Definition flags_seeded (synthetic : bool) : Flags :=
  {| download_if_missing := false;
     use_synthetic_data := synthetic;
     dataset := "ml-20m";
     data_dir := "/tmp/movielens-data";
     seed := Some 7;
     train_epochs := 3;
     epochs_between_evals := 1;
     batch_size := 8;
     ml_perf := true |}.

Definition flags_unknown_dataset : Flags :=
  {| download_if_missing := true;
     use_synthetic_data := true;
     dataset := "ml-100k";
     data_dir := "/tmp/movielens-data";
     seed := None;
     train_epochs := 2;
     epochs_between_evals := 1;
     batch_size := 4;
     ml_perf := false |}.

(** Libraries whose parsed flags hold no [batches_per_step], and libraries
    where it is zero. *)
Definition libs_without_batches_per_step : Libs :=
  {| Producer := Producer Sample.even_libs;
     NCFDataset := NCFDataset Sample.even_libs;
     Dataset := Dataset Sample.even_libs;
     Optimizer := Optimizer Sample.even_libs;
     Strategy := Strategy Sample.even_libs;
     GraphTensor := GraphTensor Sample.even_libs;
     Callback := Callback Sample.even_libs;
     train_batches_per_epoch := train_batches_per_epoch Sample.even_libs;
     eval_batches_per_epoch := eval_batches_per_epoch Sample.even_libs;
     NCFDataset_num_users := NCFDataset_num_users Sample.even_libs;
     NCFDataset_num_items := NCFDataset_num_items Sample.even_libs;
     parse_flags := fun _ => {[ "train_epochs"%string := 2 ]};
     DummyConstructor := DummyConstructor Sample.even_libs;
     DATASET_TO_NUM_USERS_AND_ITEMS :=
       DATASET_TO_NUM_USERS_AND_ITEMS Sample.even_libs;
     SYNTHETIC_BATCHES_PER_EPOCH := SYNTHETIC_BATCHES_PER_EPOCH Sample.even_libs;
     instantiate_pipeline := instantiate_pipeline Sample.even_libs;
     make_input_fn := make_input_fn Sample.even_libs;
     repeat := repeat Sample.even_libs;
     construct_model_keras := construct_model_keras Sample.even_libs;
     get_optimizer := get_optimizer Sample.even_libs;
     get_distribution_strategy := get_distribution_strategy Sample.even_libs;
     tf_cast := tf_cast Sample.even_libs;
     tf_reshape := tf_reshape Sample.even_libs;
     sparse_softmax_cross_entropy :=
       sparse_softmax_cross_entropy Sample.even_libs |}.

Definition libs_zero_batches_per_step : Libs := Sample.libs 6 4 0.




End SampleMain.

(** * Properties *)

(** ** Python arithmetic *)

Lemma py_mod_zero (a b : Z) :
  py_mod a b = inr 0 <-> b <> 0 /\ a mod b = 0.
Proof.
  unfold py_mod. destruct (Z.eqb_spec b 0) as [-> | Hb].
  - split; [discriminate | intros [Hb _]; contradiction].
  - split.
    + intros [= Hm]. split; assumption.
    + intros [_ ->]. reflexivity.
Qed.

Lemma py_floordiv_exact (a b : Z) :
  py_mod a b = inr 0 ->
  exists q, py_floordiv a b = inr q /\ q * b = a.
Proof.
  intros H. apply py_mod_zero in H as [Hb Hm].
  exists (a / b). split.
  - unfold py_floordiv. apply Z.eqb_neq in Hb. rewrite Hb. reflexivity.
  - rewrite Z.mul_comm. symmetry. apply Z.div_exact; assumption.
Qed.

(** ** Layers on one-logit tensors *)

Section Logits.

Import Keras.

Variable f : spec_float -> spec_float.




End Logits.







(** ** Symbolic execution of [run_ncf] *)

Ltac unfold_run :=
  unfold final_store, outcome, data_store, run_ncf, run_ncf_train,
    run_ncf_data, assert, py_floordiv, py_mod, py_not_int, dict_getitem.

Ltac reduce :=
  cbv beta iota zeta delta
    [bind ret lift read write emit set_params set_total_training_cycle
     set_producer set_num_users set_num_items set_num_train_steps
     set_num_eval_steps params total_training_cycle producer num_users
     num_items num_train_steps num_eval_steps trace empty_store fst snd
     andb negb].

(** One branching point of the function at a time: a flag, a dictionary
    subscript, the tuple returned by the pipeline, a test against zero. *)
Ltac exec_step :=
  match goal with
  | |- context [download_if_missing ?F] =>
      destruct (download_if_missing F) eqn:?
  | |- context [if use_synthetic_data ?F then _ else _] =>
      destruct (use_synthetic_data F) eqn:?
  | |- context [match seed ?F with _ => _ end] => destruct (seed F) eqn:?
  | |- context [<[_ := _]> _ !! _] => rewrite lookup_insert_ne by done
  | |- context [parse_flags ?L ?F !! ?k] =>
      destruct (parse_flags L F !! k) eqn:?
  | |- context [DATASET_TO_NUM_USERS_AND_ITEMS ?L !! ?k] =>
      destruct (DATASET_TO_NUM_USERS_AND_ITEMS L !! k) as [[? ?]|] eqn:?
  | |- context [instantiate_pipeline ?L ?a ?b ?c ?d ?e ?f] =>
      destruct (instantiate_pipeline L a b c d e f) as [? ?] eqn:?
  | |- context [?a =? 0] => destruct (a =? 0) eqn:?
  end; reduce.

Ltac exec := unfold_run; reduce; repeat exec_step.

(** Every path of one invocation, with the store and the outcome it ends in. *)
Ltac run_cases L F :=
  unfold final_store, outcome;
  let s := fresh "s" in
  let o := fresh "o" in
  let E := fresh "E" in
  destruct (run_ncf L F empty_store) as [s o] eqn:E;
  revert E; exec; intros [= <- <-]; cbn.

(** The calls of one invocation.  Either it stops before [compile], or it
    asks for the strategy and compiles once, and then calls [fit] once exactly
    when it returns. *)
Lemma run_ncf_calls (L : Libs) (F : Flags) :
  let s := final_store L F in
  let ui := Keras.Input [1] (batch_size F) "user_id" Keras.int32 in
  let ii := Keras.Input [1] (batch_size F) "item_id" Keras.int32 in
  evaluate_calls (trace s) = [] /\
  download_calls (trace s) =
    (if download_if_missing F && negb (use_synthetic_data F)
     then [(dataset F, data_dir F)] else []) /\
  (use_synthetic_data F = true ->
   assert_stmts (trace s) = [] /\ outcome L F <> inl AssertionError) /\
  ((compile_calls (trace s) = [] /\ fit_calls (trace s) = [] /\
    outcome L F <> inr tt) \/
   exists pr p,
     producer s = Some pr /\ params s = Some p /\
     strategy_calls (trace s) = [1] /\
     compile_calls (trace s) =
       [{| compile_model :=
             _logitfy [ui; ii] (construct_model_keras L ui ii p);
           compile_loss := softmax_crossentropy_with_logits L F;
           compile_optimizer := get_optimizer L p;
           compile_metrics := ["accuracy"%string];
           compile_distribute := None |}] /\
     match outcome L F with
     | inr _ =>
         exists bps,
           p !! "batches_per_step"%string = Some bps /\ bps <> 0 /\
           fit_calls (trace s) =
             [{| fit_model :=
                   _logitfy [ui; ii] (construct_model_keras L ui ii p);
                 fit_x :=
                   repeat L (make_input_fn L pr true false p) (train_epochs F);
                 fit_epochs := train_epochs F;
                 fit_steps_per_epoch := train_batches_per_epoch L pr / bps;
                 fit_callbacks := [];
                 fit_verbose := 0 |}]
     | inl _ => fit_calls (trace s) = []
     end).
Proof.
  run_cases L F.
  all: repeat split; try reflexivity; try discriminate; try congruence.
  all: try (left; repeat split; congruence).
  all: right; do 2 eexists; repeat split.
  all: eexists; repeat split.
  all: try (rewrite !lookup_insert_ne by done; eassumption).
  all: try (apply Z.eqb_neq; assumption).
Qed.

(** The compile call of an invocation, if any. *)
Lemma compile_call_inv (L : Libs) (F : Flags) (c : CompileArgs L) :
  In c (compile_calls (trace (final_store L F))) ->
  exists p,
    params (final_store L F) = Some p /\
    strategy_calls (trace (final_store L F)) = [1] /\
    c = {| compile_model :=
             _logitfy
               [Keras.Input [1] (batch_size F) "user_id" Keras.int32;
                Keras.Input [1] (batch_size F) "item_id" Keras.int32]
               (construct_model_keras L
                  (Keras.Input [1] (batch_size F) "user_id" Keras.int32)
                  (Keras.Input [1] (batch_size F) "item_id" Keras.int32) p);
           compile_loss := softmax_crossentropy_with_logits L F;
           compile_optimizer := get_optimizer L p;
           compile_metrics := ["accuracy"%string];
           compile_distribute := None |}.
Proof.
  intros Hc.
  destruct (run_ncf_calls L F)
    as (_ & _ & _ & [(Hnone & _) | (pr & p & _ & Hp & Hs & Hcalls & _)]).
  - rewrite Hnone in Hc. destruct Hc.
  - rewrite Hcalls in Hc. destruct Hc as [<- | []].
    exists p. repeat split; assumption.
Qed.

(** The fit call of an invocation, if any. *)
Lemma fit_call_inv (L : Libs) (F : Flags) (c : FitArgs L) :
  In c (fit_calls (trace (final_store L F))) ->
  exists pr p bps,
    producer (final_store L F) = Some pr /\
    params (final_store L F) = Some p /\
    p !! "batches_per_step"%string = Some bps /\ bps <> 0 /\
    c = {| fit_model :=
             _logitfy
               [Keras.Input [1] (batch_size F) "user_id" Keras.int32;
                Keras.Input [1] (batch_size F) "item_id" Keras.int32]
               (construct_model_keras L
                  (Keras.Input [1] (batch_size F) "user_id" Keras.int32)
                  (Keras.Input [1] (batch_size F) "item_id" Keras.int32) p);
           fit_x := repeat L (make_input_fn L pr true false p) (train_epochs F);
           fit_epochs := train_epochs F;
           fit_steps_per_epoch := train_batches_per_epoch L pr / bps;
           fit_callbacks := [];
           fit_verbose := 0 |}.
Proof.
  intros Hc.
  destruct (run_ncf_calls L F)
    as (_ & _ & _ & [(_ & Hnone & _) | (pr & p & Hpr & Hp & _ & _ & Hfit)]).
  - rewrite Hnone in Hc. destruct Hc.
  - destruct (outcome L F) as [e | u].
    + rewrite Hfit in Hc. destruct Hc.
    + destruct Hfit as (bps & Hb & Hz & Hfit). rewrite Hfit in Hc.
      destruct Hc as [<- | []].
      exists pr, p, bps. repeat split; assumption.
Qed.

(** C1: the code never evaluates.  On every invocation, whatever the flags
    and the libraries, the trace holds no call of [evaluate]: the function
    returns right after [fit], and [num_eval_steps] is computed but not
    used. *)
Theorem run_ncf_never_evaluates (L : Libs) (F : Flags) :
  evaluate_calls (trace (final_store L F)) = [].
Proof. apply (run_ncf_calls L F). Qed.

(** The sample invocation on synthetic data: it returns, has called [fit]
    once and [evaluate] never. *)
Example sample_run_trains_without_evaluating :
  outcome Sample.even_libs (Sample.flags true) = inr tt /\
  length (fit_calls (trace (final_store Sample.even_libs (Sample.flags true))))
  = 1%nat /\
  evaluate_calls (trace (final_store Sample.even_libs (Sample.flags true)))
  = [].
Proof. vm_compute. repeat split. Qed.

(** The sample invocation on real data does compile and fit. *)
Lemma sample_compile_call :
  exists c,
    In c (compile_calls
            (trace (final_store Sample.even_libs (Sample.flags false)))).
Proof. vm_compute. eexists. left. reflexivity. Defined.

Lemma sample_fit_call :
  exists c,
    In c (fit_calls
            (trace (final_store Sample.even_libs (Sample.flags false)))).
Proof. vm_compute. eexists. left. reflexivity. Defined.

(** C2, as stated, fails: on the sample invocation the model is compiled, and
    the distribution setting of that call is not the strategy returned by
    [get_distribution_strategy(num_gpus=1)]. *)
Lemma strategy_unused_counterexample :
  ~ (forall (L : Libs) (F : Flags) (c : CompileArgs L),
       In c (compile_calls (trace (final_store L F))) ->
       compile_distribute c = Some (get_distribution_strategy L 1)).
Proof.
  intros H. destruct sample_compile_call as [c Hc].
  specialize (H _ _ c Hc).
  destruct (compile_call_inv _ _ c Hc) as (p & _ & _ & ->).
  discriminate.
Qed.

(** C2, amended: whenever the model is compiled, the strategy has been asked
    of [distribution_utils] once, with [num_gpus=1], and the model is compiled
    with [distribute=None]: the strategy is not passed on. *)
Theorem compile_ignores_strategy (L : Libs) (F : Flags) (c : CompileArgs L) :
  In c (compile_calls (trace (final_store L F))) ->
  strategy_calls (trace (final_store L F)) = [1] /\
  compile_distribute c = None.
Proof.
  intros Hc. destruct (compile_call_inv L F c Hc) as (p & _ & Hs & ->).
  split; [exact Hs | reflexivity].
Qed.

Lemma compile_ignores_strategy_witness :
  exists c,
    In c (compile_calls
            (trace (final_store Sample.even_libs (Sample.flags false)))) /\
    strategy_calls
      (trace (final_store Sample.even_libs (Sample.flags false))) = [1] /\
    compile_distribute c = None.
Proof.
  destruct sample_compile_call as [c Hc]. exists c.
  split; [exact Hc |].
  exact (compile_ignores_strategy Sample.even_libs (Sample.flags false) c Hc).
Defined.

(** C3, as stated, fails: on real data with 3 training batches per epoch and
    [batches_per_step = 2] the assertion of line 107 raises, and [fit] is not
    called at all. *)
Lemma fit_once_counterexample :
  outcome Sample.odd_libs (Sample.flags false) = inl AssertionError /\
  fit_calls (trace (final_store Sample.odd_libs (Sample.flags false))) = [] /\
  ~ (forall (L : Libs) (F : Flags),
       exists c pr p bps,
         fit_calls (trace (final_store L F)) = [c] /\
         producer (final_store L F) = Some pr /\
         params (final_store L F) = Some p /\
         dict_getitem p "batches_per_step" = inr bps /\
         fit_epochs c = train_epochs F /\
         py_floordiv (train_batches_per_epoch L pr) bps
         = inr (fit_steps_per_epoch c) /\
         fit_callbacks c = [] /\
         fit_verbose c = 0).
Proof.
  split; [vm_compute; reflexivity |]. split; [vm_compute; reflexivity |].
  intros H.
  destruct (H Sample.odd_libs (Sample.flags false))
    as (c & pr & p & bps & Hc & _).
  vm_compute in Hc. discriminate.
Qed.

(** C3, amended: an invocation that returns has called [fit] exactly once,
    with [epochs = FLAGS.train_epochs], [steps_per_epoch =
    producer.train_batches_per_epoch // params["batches_per_step"]], no
    callback and [verbose=0]; an invocation that raises has not called it. *)
Theorem fit_called_once_on_return (L : Libs) (F : Flags) :
  (outcome L F = inr tt ->
   exists c pr p bps,
     fit_calls (trace (final_store L F)) = [c] /\
     producer (final_store L F) = Some pr /\
     params (final_store L F) = Some p /\
     dict_getitem p "batches_per_step" = inr bps /\
     fit_epochs c = train_epochs F /\
     py_floordiv (train_batches_per_epoch L pr) bps
     = inr (fit_steps_per_epoch c) /\
     fit_callbacks c = [] /\
     fit_verbose c = 0) /\
  (forall e, outcome L F = inl e ->
     fit_calls (trace (final_store L F)) = []).
Proof.
  destruct (run_ncf_calls L F)
    as (_ & _ & _ & [(_ & Hnone & Herr) | (pr & p & Hpr & Hp & _ & _ & Hfit)]).
  - split; [intros Hok; contradiction | intros e _; exact Hnone].
  - destruct (outcome L F) as [e | []].
    + split; [discriminate | intros e' _; exact Hfit].
    + split; [intros _ | discriminate].
      destruct Hfit as (bps & Hb & Hz & Hfit).
      eexists. exists pr, p, bps.
      split; [exact Hfit |]. split; [exact Hpr |]. split; [exact Hp |].
      unfold dict_getitem, py_floordiv. rewrite Hb.
      apply Z.eqb_neq in Hz. rewrite Hz. cbn. repeat split.
Qed.

Lemma fit_called_once_on_return_witness :
  outcome Sample.even_libs (Sample.flags false) = inr tt /\
  exists c pr p bps,
    fit_calls (trace (final_store Sample.even_libs (Sample.flags false)))
    = [c] /\
    producer (final_store Sample.even_libs (Sample.flags false)) = Some pr /\
    params (final_store Sample.even_libs (Sample.flags false)) = Some p /\
    dict_getitem p "batches_per_step" = inr bps /\
    fit_epochs c = 2 /\
    py_floordiv (train_batches_per_epoch Sample.even_libs pr) bps
    = inr (fit_steps_per_epoch c) /\
    fit_callbacks c = [] /\
    fit_verbose c = 0.
Proof.
  split; [vm_compute; reflexivity |].
  apply (proj1 (fit_called_once_on_return
                  Sample.even_libs (Sample.flags false))).
  vm_compute. reflexivity.
Defined.

(** C4: the dataset given to [fit] is the one made by the input function of
    the data pipeline, [make_input_fn(producer=producer, is_training=True,
    use_tpu=False)] applied to [params], repeated [FLAGS.train_epochs] times;
    [fit] takes no other data argument. *)
Theorem fit_dataset_from_pipeline (L : Libs) (F : Flags) (c : FitArgs L) :
  In c (fit_calls (trace (final_store L F))) ->
  exists pr p,
    producer (final_store L F) = Some pr /\
    params (final_store L F) = Some p /\
    fit_x c = repeat L (make_input_fn L pr true false p) (train_epochs F).
Proof.
  intros Hc.
  destruct (fit_call_inv L F c Hc) as (pr & p & bps & Hpr & Hp & _ & _ & ->).
  exists pr, p. repeat split; assumption.
Qed.

Lemma fit_dataset_from_pipeline_witness :
  exists c,
    In c (fit_calls
            (trace (final_store Sample.even_libs (Sample.flags false)))) /\
    exists pr p,
      producer (final_store Sample.even_libs (Sample.flags false)) = Some pr /\
      params (final_store Sample.even_libs (Sample.flags false)) = Some p /\
      fit_x c = Sample.repeated (Sample.from_input_fn pr true false p) 2.
Proof.
  destruct sample_fit_call as [c Hc]. exists c.
  split; [exact Hc |].
  exact (fit_dataset_from_pipeline
           Sample.even_libs (Sample.flags false) c Hc).
Defined.

(** C5: the model that is compiled and fitted is the network built by
    [neumf_model.construct_model_keras(user_input, item_input, params)],
    wrapped by [_logitfy] and by nothing else; the two inputs are [int32]
    input layers of shape [(1,)] and batch size [FLAGS.batch_size]; the
    optimizer is [neumf_model.get_optimizer(params)]. *)
Theorem trained_model_is_logitfied_neumf (L : Libs) (F : Flags) :
  let user_input := Keras.Input [1] (batch_size F) "user_id" Keras.int32 in
  let item_input := Keras.Input [1] (batch_size F) "item_id" Keras.int32 in
  (forall c : FitArgs L,
     In c (fit_calls (trace (final_store L F))) ->
     exists p,
       params (final_store L F) = Some p /\
       fit_model c
       = _logitfy [user_input; item_input]
           (construct_model_keras L user_input item_input p)) /\
  (forall c : CompileArgs L,
     In c (compile_calls (trace (final_store L F))) ->
     exists p,
       params (final_store L F) = Some p /\
       compile_model c
       = _logitfy [user_input; item_input]
           (construct_model_keras L user_input item_input p) /\
       compile_optimizer c = get_optimizer L p).
Proof.
  intros user_input item_input. split; intros c Hc.
  - destruct (fit_call_inv L F c Hc) as (pr & p & bps & _ & Hp & _ & _ & ->).
    exists p. split; [exact Hp | reflexivity].
  - destruct (compile_call_inv L F c Hc) as (p & Hp & _ & ->).
    exists p. split; [exact Hp |]. split; reflexivity.
Qed.

Lemma trained_model_is_logitfied_neumf_witness :
  exists (cf : FitArgs Sample.even_libs) (cc : CompileArgs Sample.even_libs),
    In cf (fit_calls
             (trace (final_store Sample.even_libs (Sample.flags false)))) /\
    In cc (compile_calls
             (trace (final_store Sample.even_libs (Sample.flags false)))) /\
    (exists p,
       params (final_store Sample.even_libs (Sample.flags false)) = Some p /\
       fit_model cf
       = _logitfy
           [Keras.Input [1] 4 "user_id" Keras.int32;
            Keras.Input [1] 4 "item_id" Keras.int32]
           (construct_model_keras Sample.even_libs
              (Keras.Input [1] 4 "user_id" Keras.int32)
              (Keras.Input [1] 4 "item_id" Keras.int32) p)) /\
    (exists p,
       params (final_store Sample.even_libs (Sample.flags false)) = Some p /\
       compile_model cc
       = _logitfy
           [Keras.Input [1] 4 "user_id" Keras.int32;
            Keras.Input [1] 4 "item_id" Keras.int32]
           (construct_model_keras Sample.even_libs
              (Keras.Input [1] 4 "user_id" Keras.int32)
              (Keras.Input [1] 4 "item_id" Keras.int32) p) /\
       compile_optimizer cc = get_optimizer Sample.even_libs p).
Proof.
  destruct sample_fit_call as [cf Hf]. destruct sample_compile_call as [cc Hc].
  exists cf, cc. split; [exact Hf |]. split; [exact Hc |].
  split.
  - exact (proj1 (trained_model_is_logitfied_neumf
                    Sample.even_libs (Sample.flags false)) cf Hf).
  - exact (proj2 (trained_model_is_logitfied_neumf
                    Sample.even_libs (Sample.flags false)) cc Hc).
Defined.

(** C6: the loss the model is compiled with is, on every [y_true] and
    [y_pred], [tf.losses.sparse_softmax_cross_entropy] with labels [y_true]
    cast to [int32] and reshaped to [[FLAGS.batch_size]], and logits [y_pred]
    reshaped to [[FLAGS.batch_size, 2]]. *)
Theorem compiled_loss_is_sparse_softmax (L : Libs) (F : Flags)
    (c : CompileArgs L) (y_true y_pred : GraphTensor L) :
  In c (compile_calls (trace (final_store L F))) ->
  compile_loss c y_true y_pred
  = sparse_softmax_cross_entropy L
      (tf_reshape L (tf_cast L y_true Keras.int32) [batch_size F])
      (tf_reshape L y_pred [batch_size F; 2]).
Proof.
  intros Hc. destruct (compile_call_inv L F c Hc) as (p & _ & _ & ->).
  reflexivity.
Qed.

Lemma compiled_loss_is_sparse_softmax_witness :
  exists c,
    In c (compile_calls
            (trace (final_store Sample.even_libs (Sample.flags false)))) /\
    compile_loss c (Sample.placeholder "y_true") (Sample.placeholder "y_pred")
    = Sample.sparse_xent
        (Sample.reshape
           (Sample.cast (Sample.placeholder "y_true") Keras.int32) [4])
        (Sample.reshape (Sample.placeholder "y_pred") [4; 2]).
Proof.
  destruct sample_compile_call as [c Hc]. exists c.
  split; [exact Hc |].
  exact (compiled_loss_is_sparse_softmax
           Sample.even_libs (Sample.flags false) c
           (Sample.placeholder "y_true") (Sample.placeholder "y_pred") Hc).
Defined.

(** ** The data block, lines 89-108 *)

(** The synthetic branch, when line 87 and the subscript of line 91 do not
    raise. *)
Lemma run_ncf_data_synthetic (L : Libs) (F : Flags) (q : Z) (ui : Z * Z) :
  use_synthetic_data F = true ->
  py_floordiv (train_epochs F) (epochs_between_evals F) = inr q ->
  dict_getitem (DATASET_TO_NUM_USERS_AND_ITEMS L) (dataset F) = inr ui ->
  snd (run_ncf_data L F empty_store) = inr tt /\
  producer (data_store L F) = Some (DummyConstructor L) /\
  num_users (data_store L F) = Some (fst ui) /\
  num_items (data_store L F) = Some (snd ui) /\
  num_train_steps (data_store L F) = Some (SYNTHETIC_BATCHES_PER_EPOCH L) /\
  num_eval_steps (data_store L F) = Some (SYNTHETIC_BATCHES_PER_EPOCH L).
Proof.
  intros Hs Hq Hui. unfold data_store.
  destruct (run_ncf_data L F empty_store) as [s o] eqn:E.
  revert Hq Hui E. exec; intros Hq Hui [= <- <-]; try congruence.
  all: injection Hui as <-; cbn; repeat split.
Qed.

(** The real-data branch, for a non-zero [batches_per_step]: the two
    assertions decide the outcome, and line 149 computes again the value of
    line 103. *)
Lemma real_data_run (L : Libs) (F : Flags) (bps : Z)
    (nd : NCFDataset L) (pr : Producer L) :
  use_synthetic_data F = false ->
  (epochs_between_evals F =? 0) = false ->
  parse_flags L F !! "batches_per_step"%string = Some bps ->
  (bps =? 0) = false ->
  instantiate_pipeline L (dataset F) (data_dir F) None (ml_perf F)
    (bool_decide (seed F <> None)) (parse_flags L F) = (nd, pr) ->
  let tb_ok := train_batches_per_epoch L pr mod bps =? 0 in
  let eb_ok := eval_batches_per_epoch L pr mod bps =? 0 in
  outcome L F = (if tb_ok && eb_ok then inr tt else inl AssertionError) /\
  assert_stmts (trace (final_store L F))
  = (if tb_ok then [true; eb_ok] else [false]) /\
  num_train_steps (data_store L F)
  = Some (train_batches_per_epoch L pr / bps) /\
  (tb_ok && eb_ok = true ->
   exists c,
     fit_calls (trace (final_store L F)) = [c] /\
     fit_steps_per_epoch c = train_batches_per_epoch L pr / bps /\
     num_train_steps (final_store L F) = Some (fit_steps_per_epoch c)).
Proof.
  intros Hs He Hb Hz Hp tb_ok eb_ok. subst tb_ok eb_ok.
  unfold final_store, outcome, data_store.
  destruct (run_ncf_data L F empty_store) as [s1 o1] eqn:E1.
  destruct (run_ncf L F empty_store) as [s2 o2] eqn:E2.
  revert E1 E2.
  unfold_run. rewrite !Hs, !He. reduce.
  destruct (download_if_missing F), (seed F); reduce.
  all: rewrite Hp; reduce; rewrite Hb; reduce; rewrite Hz; reduce.
  all: repeat exec_step.
  all: intros [= <- <-] [= <- <-]; cbn; repeat split; try congruence.
  all: intros _; eexists; repeat split.
  all: cbn; congruence.
Qed.

(** C9: on real data the two assertions hold exactly when both batch counts
    are multiples of [params["batches_per_step"]]: an invocation raises
    [AssertionError] if and only if one of them is not.  When both are, no
    assertion fails and the invocation returns, [num_train_steps *
    batches_per_step] is [train_batches_per_epoch] with nothing truncated, and
    the value computed again on line 149, which [fit] receives, is the value
    of line 103. *)
Theorem divisibility_asserts (L : Libs) (F : Flags) (bps : Z) :
  use_synthetic_data F = false ->
  epochs_between_evals F <> 0 ->
  parse_flags L F !! "batches_per_step"%string = Some bps ->
  let pr :=
    snd (instantiate_pipeline L (dataset F) (data_dir F) None (ml_perf F)
           (bool_decide (seed F <> None)) (parse_flags L F)) in
  let tb := train_batches_per_epoch L pr in
  let eb := eval_batches_per_epoch L pr in
  (bps <> 0 ->
   (outcome L F = inl AssertionError <->
    ~ (tb mod bps = 0 /\ eb mod bps = 0))) /\
  (py_mod tb bps = inr 0 ->
   py_mod eb bps = inr 0 ->
   outcome L F = inr tt /\
   assert_stmts (trace (final_store L F)) = [true; true] /\
   exists n c,
     num_train_steps (data_store L F) = Some n /\
     n * bps = tb /\
     fit_calls (trace (final_store L F)) = [c] /\
     fit_steps_per_epoch c = n /\
     num_train_steps (final_store L F) = Some n).
Proof.
  intros Hs He Hb pr tb eb.
  destruct (instantiate_pipeline L (dataset F) (data_dir F) None (ml_perf F)
              (bool_decide (seed F <> None)) (parse_flags L F))
    as [nd pr'] eqn:Hp.
  cbn [snd] in pr. subst pr tb eb.
  apply Z.eqb_neq in He.
  assert (Hrun : bps <> 0 -> _) by
    (intros Hz; apply Z.eqb_neq in Hz;
     exact (real_data_run L F bps nd pr' Hs He Hb Hz Hp)).
  split.
  - intros Hz. destruct (Hrun Hz) as (Ho & _). rewrite Ho.
    destruct (Z.eqb_spec (train_batches_per_epoch L pr' mod bps) 0) as [Ht | Ht];
      destruct (Z.eqb_spec (eval_batches_per_epoch L pr' mod bps) 0) as [Hv | Hv];
      cbn; split; try discriminate; try tauto.
  - intros Ht Hv.
    destruct (py_floordiv_exact _ _ Ht) as (q & Hq & Hexact).
    apply py_mod_zero in Ht as [Hz Ht]. apply py_mod_zero in Hv as [_ Hv].
    destruct (Hrun Hz) as (Ho & Ha & Hn & Hfit).
    apply Z.eqb_eq in Ht, Hv. rewrite Ht, Hv in *. cbn in *.
    destruct (Hfit eq_refl) as (c & Hc & Hsteps & Hfinal).
    split; [exact Ho |]. split; [exact Ha |].
    unfold py_floordiv in Hq. apply Z.eqb_neq in Hz. rewrite Hz in Hq.
    injection Hq as <-.
    exists (train_batches_per_epoch L pr' / bps), c.
    rewrite Hsteps in Hfinal. repeat split; assumption.
Qed.

Lemma divisibility_asserts_witness :
  use_synthetic_data (Sample.flags false) = false /\
  epochs_between_evals (Sample.flags false) <> 0 /\
  parse_flags Sample.even_libs (Sample.flags false)
    !! "batches_per_step"%string = Some 2 /\
  py_mod 6 2 = inr 0 /\
  py_mod 4 2 = inr 0 /\
  (outcome Sample.even_libs (Sample.flags false) = inl AssertionError <->
   ~ (6 mod 2 = 0 /\ 4 mod 2 = 0)) /\
  outcome Sample.even_libs (Sample.flags false) = inr tt /\
  assert_stmts (trace (final_store Sample.even_libs (Sample.flags false)))
  = [true; true] /\
  exists n c,
    num_train_steps (data_store Sample.even_libs (Sample.flags false))
    = Some n /\
    n * 2 = 6 /\
    fit_calls (trace (final_store Sample.even_libs (Sample.flags false)))
    = [c] /\
    fit_steps_per_epoch c = n /\
    num_train_steps (final_store Sample.even_libs (Sample.flags false))
    = Some n.
Proof.
  assert (Hs : use_synthetic_data (Sample.flags false) = false)
    by reflexivity.
  assert (He : epochs_between_evals (Sample.flags false) <> 0)
    by (vm_compute; discriminate).
  assert (Hb : parse_flags Sample.even_libs (Sample.flags false)
                 !! "batches_per_step"%string = Some 2)
    by (vm_compute; reflexivity).
  assert (Ht : py_mod 6 2 = inr 0) by reflexivity.
  assert (Hv : py_mod 4 2 = inr 0) by reflexivity.
  assert (Hz : 2 <> 0) by lia.
  split; [exact Hs |]. split; [exact He |]. split; [exact Hb |].
  split; [exact Ht |]. split; [exact Hv |].
  split.
  - exact (proj1 (divisibility_asserts
                    Sample.even_libs (Sample.flags false) 2 Hs He Hb) Hz).
  - exact (proj2 (divisibility_asserts
                    Sample.even_libs (Sample.flags false) 2 Hs He Hb) Ht Hv).
Defined.

(** C10, as stated, fails: with [FLAGS.use_synthetic_data] the value
    [SYNTHETIC_BATCHES_PER_EPOCH] of [num_train_steps] does not last.  On the
    sample invocation line 149 assigns 3 to it, which is what [fit] receives,
    where the synthetic value is 2000; and an invocation with
    [--epochs_between_evals 0] raises on line 87 before any producer is
    built. *)
Lemma synthetic_values_counterexample :
  num_train_steps (final_store Sample.even_libs (Sample.flags true)) = Some 3 /\
  SYNTHETIC_BATCHES_PER_EPOCH Sample.even_libs = 2000 /\
  producer (final_store Sample.even_libs (SampleMain.flags_zero_evals true))
  = None /\
  ~ (forall (L : Libs) (F : Flags),
       use_synthetic_data F = true ->
       producer (final_store L F) = Some (DummyConstructor L) /\
       (exists ui,
          DATASET_TO_NUM_USERS_AND_ITEMS L !! dataset F = Some ui /\
          num_users (final_store L F) = Some (fst ui) /\
          num_items (final_store L F) = Some (snd ui)) /\
       num_train_steps (final_store L F) = Some (SYNTHETIC_BATCHES_PER_EPOCH L) /\
       num_eval_steps (final_store L F) = Some (SYNTHETIC_BATCHES_PER_EPOCH L) /\
       assert_stmts (trace (final_store L F)) = []).
Proof.
  split; [vm_compute; reflexivity |]. split; [reflexivity |].
  split; [vm_compute; reflexivity |].
  intros H.
  destruct (H Sample.even_libs (Sample.flags true) eq_refl)
    as (_ & _ & Hsteps & _).
  vm_compute in Hsteps. discriminate.
Qed.

(** C10, amended: [movielens.download] is called, on [FLAGS.dataset] and
    [FLAGS.data_dir], exactly when [FLAGS.download_if_missing] is set and
    [FLAGS.use_synthetic_data] is not.  With [FLAGS.use_synthetic_data] no
    assertion is executed; and if line 87 does not raise and [FLAGS.dataset]
    is a key of [DATASET_TO_NUM_USERS_AND_ITEMS], then when line 109 has run
    the producer is [DummyConstructor()], [(num_users, num_items)] is
    [DATASET_TO_NUM_USERS_AND_ITEMS[FLAGS.dataset]], and [num_train_steps]
    and [num_eval_steps] are [SYNTHETIC_BATCHES_PER_EPOCH]. *)
Theorem download_and_synthetic_path (L : Libs) (F : Flags) :
  (forall a,
     In a (download_calls (trace (final_store L F))) <->
     download_if_missing F = true /\ use_synthetic_data F = false /\
     a = (dataset F, data_dir F)) /\
  (use_synthetic_data F = true ->
   assert_stmts (trace (final_store L F)) = [] /\
   forall q ui,
     py_floordiv (train_epochs F) (epochs_between_evals F) = inr q ->
     dict_getitem (DATASET_TO_NUM_USERS_AND_ITEMS L) (dataset F) = inr ui ->
     producer (data_store L F) = Some (DummyConstructor L) /\
     num_users (data_store L F) = Some (fst ui) /\
     num_items (data_store L F) = Some (snd ui) /\
     num_train_steps (data_store L F) = Some (SYNTHETIC_BATCHES_PER_EPOCH L) /\
     num_eval_steps (data_store L F) = Some (SYNTHETIC_BATCHES_PER_EPOCH L)).
Proof.
  destruct (run_ncf_calls L F) as (_ & Hd & Ha & _).
  split.
  - intros a. rewrite Hd.
    destruct (download_if_missing F), (use_synthetic_data F); cbn;
      intuition congruence.
  - intros Hs. split; [apply Ha; exact Hs |].
    intros q ui Hq Hui.
    apply (run_ncf_data_synthetic L F q ui Hs Hq Hui).
Qed.

Lemma download_and_synthetic_path_witness :
  In ("ml-1m"%string, "/tmp/movielens-data"%string)
     (download_calls
        (trace (final_store Sample.even_libs (Sample.flags false)))) /\
  use_synthetic_data (Sample.flags true) = true /\
  py_floordiv 2 1 = inr 2 /\
  dict_getitem (DATASET_TO_NUM_USERS_AND_ITEMS Sample.even_libs) "ml-1m"
  = inr (6040, 3706) /\
  assert_stmts (trace (final_store Sample.even_libs (Sample.flags true)))
  = [] /\
  producer (data_store Sample.even_libs (Sample.flags true)) = Some (6, 4) /\
  num_users (data_store Sample.even_libs (Sample.flags true)) = Some 6040 /\
  num_items (data_store Sample.even_libs (Sample.flags true)) = Some 3706 /\
  num_train_steps (data_store Sample.even_libs (Sample.flags true))
  = Some 2000 /\
  num_eval_steps (data_store Sample.even_libs (Sample.flags true))
  = Some 2000.
Proof.
  assert (Hs : use_synthetic_data (Sample.flags true) = true) by reflexivity.
  assert (Hq : py_floordiv 2 1 = inr 2) by reflexivity.
  assert (Hui : dict_getitem
                  (DATASET_TO_NUM_USERS_AND_ITEMS Sample.even_libs) "ml-1m"
                = inr (6040, 3706)) by (vm_compute; reflexivity).
  split.
  - apply (proj1 (download_and_synthetic_path
                    Sample.even_libs (Sample.flags false))).
    repeat split; reflexivity.
  - split; [exact Hs |]. split; [exact Hq |]. split; [exact Hui |].
    destruct (proj2 (download_and_synthetic_path
                       Sample.even_libs (Sample.flags true)) Hs)
      as [Ha Hd].
    split; [exact Ha |].
    exact (Hd 2 (6040, 3706) Hq Hui).
Defined.

(** * Further properties of the driver *)

Ltac eqb_to_prop :=
  repeat match goal with
    | H : (_ =? _) = true |- _ => apply Z.eqb_eq in H
    | H : (_ =? _) = false |- _ => apply Z.eqb_neq in H
    end.

(** ** When an invocation returns, and what it can raise *)

(** In the embedding, where every library call returns, none of the
    statements of [run_ncf] raises exactly when the checks it makes pass. *)
Lemma run_ncf_outcome (L : Libs) (F : Flags) :
  outcome L F = inr tt <->
  epochs_between_evals F <> 0 /\
  exists bps,
    parse_flags L F !! "batches_per_step"%string = Some bps /\
    bps <> 0 /\
    if use_synthetic_data F
    then DATASET_TO_NUM_USERS_AND_ITEMS L !! dataset F <> None
    else
      train_batches_per_epoch L
        (snd (instantiate_pipeline L (dataset F) (data_dir F) None (ml_perf F)
                (bool_decide (seed F <> None)) (parse_flags L F))) mod bps = 0 /\
      eval_batches_per_epoch L
        (snd (instantiate_pipeline L (dataset F) (data_dir F) None (ml_perf F)
                (bool_decide (seed F <> None)) (parse_flags L F))) mod bps = 0.
Proof.
  run_cases L F.
  all: eqb_to_prop.
  all: split; [intros H; try discriminate | intros (He & bps & Hb & Hz & Hd)].
  all: try (exfalso; simplify_eq; tauto).
  all: try reflexivity.
  all: try (split; [assumption |]; eexists; split; [reflexivity |]; simplify_eq; split; [assumption |]; try split; congruence).
Qed.


(** X1: what [run_ncf] checks by itself.  If it returns, then
    [FLAGS.epochs_between_evals] is not zero, [params] holds a non-zero
    [batches_per_step] and, on synthetic data, [FLAGS.dataset] is a key of
    [DATASET_TO_NUM_USERS_AND_ITEMS], on real data, both batch counts of the
    producer are multiples of [batches_per_step].  If one of its own
    statements raises, one of these conditions fails. *)
Theorem run_ncf_own_checks (L : Libs) (F : Flags) :
  let checks_pass :=
    epochs_between_evals F <> 0 /\
    exists bps,
      parse_flags L F !! "batches_per_step"%string = Some bps /\
      bps <> 0 /\
      if use_synthetic_data F
      then DATASET_TO_NUM_USERS_AND_ITEMS L !! dataset F <> None
      else
        train_batches_per_epoch L
          (snd (instantiate_pipeline L (dataset F) (data_dir F) None
                  (ml_perf F) (bool_decide (seed F <> None))
                  (parse_flags L F))) mod bps = 0 /\
        eval_batches_per_epoch L
          (snd (instantiate_pipeline L (dataset F) (data_dir F) None
                  (ml_perf F) (bool_decide (seed F <> None))
                  (parse_flags L F))) mod bps = 0 in
  (outcome L F = inr tt -> checks_pass) /\
  (forall e, outcome L F = inl e -> ~ checks_pass).
Proof.
  intros checks_pass. split.
  - intros H. exact (proj1 (run_ncf_outcome L F) H).
  - intros e He Hc. apply (proj2 (run_ncf_outcome L F)) in Hc. congruence.
Qed.

Lemma run_ncf_own_checks_witness :
  outcome Sample.even_libs (Sample.flags false) = inr tt /\
  (epochs_between_evals (Sample.flags false) <> 0 /\
   exists bps,
     parse_flags Sample.even_libs (Sample.flags false)
       !! "batches_per_step"%string = Some bps /\
     bps <> 0 /\
     6 mod bps = 0 /\ 4 mod bps = 0) /\
  outcome Sample.odd_libs (Sample.flags false) = inl AssertionError /\
  ~ (epochs_between_evals (Sample.flags false) <> 0 /\
     exists bps,
       parse_flags Sample.odd_libs (Sample.flags false)
         !! "batches_per_step"%string = Some bps /\
       bps <> 0 /\
       3 mod bps = 0 /\ 4 mod bps = 0).
Proof.
  assert (H : outcome Sample.even_libs (Sample.flags false) = inr tt)
    by (vm_compute; reflexivity).
  assert (H' : outcome Sample.odd_libs (Sample.flags false)
               = inl AssertionError) by (vm_compute; reflexivity).
  split; [exact H |].
  split; [exact (proj1 (run_ncf_own_checks
                          Sample.even_libs (Sample.flags false)) H) |].
  split; [exact H' |].
  exact (proj2 (run_ncf_own_checks Sample.odd_libs (Sample.flags false))
           AssertionError H').
Defined.

(** X2: the only exceptions [run_ncf] raises by itself are
    [ZeroDivisionError], [KeyError] on ["batches_per_step"], [KeyError] on
    [FLAGS.dataset] (synthetic data only) and [AssertionError] (real data
    only); no local variable is read before it is assigned. *)
Theorem run_ncf_exceptions (L : Libs) (F : Flags) :
  match outcome L F with
  | inr _ => True
  | inl ZeroDivisionError => True
  | inl AssertionError => use_synthetic_data F = false
  | inl (KeyError k) =>
      k = "batches_per_step"%string \/
      (use_synthetic_data F = true /\ k = dataset F)
  | inl (UnboundLocalError _) => False
  end.
Proof.
  run_cases L F.
  all: auto.
Qed.

(** ** The stages of an invocation *)

(** Every path of an invocation: what was seeded, which data source was
    asked, and how far the run got. *)
Lemma run_ncf_stages (L : Libs) (F : Flags) :
  let s := final_store L F in
  seed_calls (trace s) = match seed F with Some x => [x] | None => [] end /\
  (if use_synthetic_data F
   then pipeline_calls (trace s) = [] /\
        (length (dummy_constructor_calls (trace s)) <= 1)%nat
   else dummy_constructor_calls (trace s) = [] /\
        (pipeline_calls (trace s) = [] \/
         pipeline_calls (trace s) =
           [{| pipeline_dataset := dataset F;
               pipeline_data_dir := data_dir F;
               pipeline_num_data_readers := None;
               pipeline_match_mlperf := ml_perf F;
               pipeline_deterministic := bool_decide (seed F <> None);
               pipeline_params := parse_flags L F |}])) /\
  ((milestones (trace s) = [] /\ start_calls (trace s) = [] /\
    input_fn_calls (trace s) = [] /\ construct_model_calls (trace s) = [] /\
    outcome L F <> inr tt) \/
   exists pr p nu ni,
     producer s = Some pr /\ params s = Some p /\
     num_users s = Some nu /\ num_items s = Some ni /\
     pr = (if use_synthetic_data F then DummyConstructor L
           else snd (instantiate_pipeline L (dataset F) (data_dir F) None
                       (ml_perf F) (bool_decide (seed F <> None))
                       (parse_flags L F))) /\
     p = <["num_items"%string := ni]>
           (<["num_users"%string := nu]> (parse_flags L F)) /\
     start_calls (trace s) = [pr] /\
     input_fn_calls (trace s) = [(pr, true, false)] /\
     construct_model_calls (trace s) =
       [(Keras.Input [1] (batch_size F) "user_id" Keras.int32,
         Keras.Input [1] (batch_size F) "item_id" Keras.int32, p)] /\
     ((milestones (trace s) = [started; compiled; fitted] /\
       outcome L F = inr tt) \/
      (milestones (trace s) = [started; compiled] /\
       outcome L F <> inr tt /\ use_synthetic_data F = true))).
Proof.
  run_cases L F.
  all: split; [reflexivity |].
  all: split; [first [ split; [reflexivity | cbn; lia]
                     | split; [reflexivity | first [left; reflexivity | right; reflexivity]] ] |].
  all: try solve [exfalso; eqb_to_prop; simplify_eq; lia].
  all: first [ left; repeat split; solve [reflexivity | discriminate]
             | right; do 4 eexists; do 9 (split; [reflexivity |]);
               first [ left; split; reflexivity
                     | right; repeat split;
                       solve [reflexivity | discriminate] ] ].
Qed.

(** X3: the producer is started, the model compiled and [fit] called in
    this order and at most once each.  A run that returns has done all three.
    A run in which a statement of [run_ncf] raises has either started
    nothing, or, on synthetic data only, started the producer and compiled
    the model without calling [fit]. *)
Theorem run_ncf_milestones (L : Libs) (F : Flags) :
  (exists rest,
     [started; compiled; fitted]
     = milestones (trace (final_store L F)) ++ rest) /\
  (outcome L F = inr tt ->
   milestones (trace (final_store L F)) = [started; compiled; fitted]) /\
  (forall e,
     outcome L F = inl e ->
     milestones (trace (final_store L F)) = [] \/
     (use_synthetic_data F = true /\
      milestones (trace (final_store L F)) = [started; compiled])).
Proof.
  destruct (run_ncf_stages L F)
    as (_ & _ & [(Hm & _ & _ & _ & Ho)
                | (pr & p & nu & ni & _ & _ & _ & _ & _ & _ & _ & _ & _
                   & [(Hm & Ho) | (Hm & Ho & Hs)])]);
    rewrite Hm.
  - split; [eexists; reflexivity |].
    split; [intros H; contradiction | intros e _; left; reflexivity].
  - split; [exists []; reflexivity |].
    split; [reflexivity | intros e He; congruence].
  - split; [eexists; reflexivity |].
    split; [intros H; contradiction |].
    intros e _. right. split; [exact Hs | reflexivity].
Qed.

Lemma run_ncf_milestones_witness :
  outcome Sample.even_libs (Sample.flags false) = inr tt /\
  milestones (trace (final_store Sample.even_libs (Sample.flags false)))
  = [started; compiled; fitted] /\
  outcome SampleMain.libs_without_batches_per_step (Sample.flags true)
  = inl (KeyError "batches_per_step") /\
  (milestones
     (trace (final_store SampleMain.libs_without_batches_per_step
               (Sample.flags true))) = [] \/
   (use_synthetic_data (Sample.flags true) = true /\
    milestones
      (trace (final_store SampleMain.libs_without_batches_per_step
                (Sample.flags true))) = [started; compiled])).
Proof.
  assert (Ho : outcome Sample.even_libs (Sample.flags false) = inr tt)
    by (vm_compute; reflexivity).
  assert (He : outcome SampleMain.libs_without_batches_per_step
                 (Sample.flags true)
               = inl (KeyError "batches_per_step"))
    by (vm_compute; reflexivity).
  split; [exact Ho |].
  split; [exact (proj1 (proj2 (run_ncf_milestones
                                 Sample.even_libs (Sample.flags false))) Ho) |].
  split; [exact He |].
  exact (proj2 (proj2 (run_ncf_milestones
                         SampleMain.libs_without_batches_per_step
                         (Sample.flags true))) _ He).
Defined.

(** The sample invocation with [--seed 7] on real data asks for the pipeline;
    the sample invocation on real data starts its producer. *)
Lemma sample_pipeline_call :
  exists a,
    In a (pipeline_calls
            (trace (final_store Sample.even_libs
                      (SampleMain.flags_seeded false)))).
Proof. vm_compute. eexists. left. reflexivity. Defined.

Lemma sample_start_call :
  exists pr,
    In pr (start_calls
             (trace (final_store Sample.even_libs (Sample.flags false)))).
Proof. vm_compute. eexists. left. reflexivity. Defined.

(** X4: [np.random.seed] is called, with [FLAGS.seed], exactly when a seed
    is given, whatever happens later; the pipeline is asked to be
    deterministic exactly in that case, with [num_data_readers=None] and with
    [params] as [parse_flags] returned it, before [num_users] and [num_items]
    are written. *)
Theorem seeding_and_determinism (L : Libs) (F : Flags) :
  seed_calls (trace (final_store L F))
  = match seed F with Some x => [x] | None => [] end /\
  forall a,
    In a (pipeline_calls (trace (final_store L F))) ->
    (pipeline_deterministic a = true <-> seed F <> None) /\
    pipeline_num_data_readers a = None /\
    pipeline_params a = parse_flags L F.
Proof.
  destruct (run_ncf_stages L F) as (Hseed & Hsrc & _).
  split; [exact Hseed |].
  intros a Ha.
  destruct (use_synthetic_data F).
  - destruct Hsrc as [Hp _]. rewrite Hp in Ha. destruct Ha.
  - destruct Hsrc as [_ [Hp | Hp]]; rewrite Hp in Ha; [destruct Ha |].
    destruct Ha as [<- | []]. cbn.
    split; [apply bool_decide_eq_true | split; reflexivity].
Qed.

Lemma seeding_and_determinism_witness :
  seed_calls
    (trace (final_store Sample.even_libs (SampleMain.flags_seeded false)))
  = [7] /\
  exists a,
    In a (pipeline_calls
            (trace (final_store Sample.even_libs
                      (SampleMain.flags_seeded false)))) /\
    (pipeline_deterministic a = true <->
     seed (SampleMain.flags_seeded false) <> None) /\
    pipeline_num_data_readers a = None /\
    pipeline_params a
    = parse_flags Sample.even_libs (SampleMain.flags_seeded false).
Proof.
  split.
  - exact (proj1 (seeding_and_determinism
                    Sample.even_libs (SampleMain.flags_seeded false))).
  - destruct sample_pipeline_call as [a Ha]. exists a.
    split; [exact Ha |].
    exact (proj2 (seeding_and_determinism
                    Sample.even_libs (SampleMain.flags_seeded false)) a Ha).
Defined.

(** X5: one data source per invocation.  On synthetic data neither
    [movielens.download] nor [instantiate_pipeline] is called; on real data
    [DummyConstructor] is not; and no invocation builds more than one
    producer. *)
Theorem one_data_source (L : Libs) (F : Flags) :
  (use_synthetic_data F = true ->
   pipeline_calls (trace (final_store L F)) = [] /\
   download_calls (trace (final_store L F)) = []) /\
  (use_synthetic_data F = false ->
   dummy_constructor_calls (trace (final_store L F)) = []) /\
  (length (pipeline_calls (trace (final_store L F)))
   + length (dummy_constructor_calls (trace (final_store L F))) <= 1)%nat.
Proof.
  destruct (run_ncf_stages L F) as (_ & Hsrc & _).
  destruct (run_ncf_calls L F) as (_ & Hd & _).
  destruct (use_synthetic_data F).
  - destruct Hsrc as [Hp Hn]. rewrite Hp.
    rewrite andb_false_r in Hd.
    split; [intros _; split; [reflexivity | exact Hd] |].
    split; [discriminate | cbn; lia].
  - destruct Hsrc as [Hn Hp]. rewrite Hn.
    split; [discriminate |]. split; [reflexivity |].
    destruct Hp as [-> | ->]; cbn; lia.
Qed.

Lemma one_data_source_witness :
  use_synthetic_data (Sample.flags true) = true /\
  pipeline_calls (trace (final_store Sample.even_libs (Sample.flags true)))
  = [] /\
  download_calls (trace (final_store Sample.even_libs (Sample.flags true)))
  = [] /\
  use_synthetic_data (Sample.flags false) = false /\
  dummy_constructor_calls
    (trace (final_store Sample.even_libs (Sample.flags false))) = [].
Proof.
  assert (Ht : use_synthetic_data (Sample.flags true) = true) by reflexivity.
  assert (Hf : use_synthetic_data (Sample.flags false) = false)
    by reflexivity.
  split; [exact Ht |].
  destruct (proj1 (one_data_source Sample.even_libs (Sample.flags true)) Ht)
    as [Hp Hd].
  split; [exact Hp |]. split; [exact Hd |]. split; [exact Hf |].
  exact (proj1 (proj2 (one_data_source Sample.even_libs (Sample.flags false)))
           Hf).
Defined.

(** X6: the producer that is started is the producer of the run
    ([DummyConstructor()] on synthetic data, the one returned by
    [instantiate_pipeline] otherwise), it is started once, and it is the
    producer the training input function is made from, with
    [is_training=True] and [use_tpu=False]. *)
Theorem started_producer_feeds_training (L : Libs) (F : Flags)
    (pr : Producer L) :
  In pr (start_calls (trace (final_store L F))) ->
  start_calls (trace (final_store L F)) = [pr] /\
  producer (final_store L F) = Some pr /\
  input_fn_calls (trace (final_store L F)) = [(pr, true, false)] /\
  pr = (if use_synthetic_data F then DummyConstructor L
        else snd (instantiate_pipeline L (dataset F) (data_dir F) None
                    (ml_perf F) (bool_decide (seed F <> None))
                    (parse_flags L F))).
Proof.
  intros Hin.
  destruct (run_ncf_stages L F)
    as (_ & _ & [(_ & Hs & _)
                | (pr' & p & nu & ni & Hpr & _ & _ & _ & Hid & _ & Hs & Hi & _)]).
  - rewrite Hs in Hin. destruct Hin.
  - rewrite Hs in Hin. destruct Hin as [<- | []].
    repeat split; assumption.
Qed.

Lemma started_producer_feeds_training_witness :
  exists pr,
    In pr (start_calls
             (trace (final_store Sample.even_libs (Sample.flags false)))) /\
    start_calls (trace (final_store Sample.even_libs (Sample.flags false)))
    = [pr] /\
    producer (final_store Sample.even_libs (Sample.flags false)) = Some pr /\
    input_fn_calls (trace (final_store Sample.even_libs (Sample.flags false)))
    = [(pr, true, false)] /\
    pr = (6, 4).
Proof.
  destruct sample_start_call as [pr Hpr]. exists pr.
  split; [exact Hpr |].
  exact (started_producer_feeds_training
           Sample.even_libs (Sample.flags false) pr Hpr).
Defined.

(** X7: once the producer has been started, [params["num_users"]] and
    [params["num_items"]] hold the values of the local variables [num_users]
    and [num_items], every other entry of [params] is as [parse_flags]
    returned it, and this dictionary is the one the model is constructed
    from. *)
Theorem params_carry_num_users_and_items (L : Libs) (F : Flags)
    (pr : Producer L) :
  In pr (start_calls (trace (final_store L F))) ->
  exists p nu ni,
    params (final_store L F) = Some p /\
    num_users (final_store L F) = Some nu /\
    num_items (final_store L F) = Some ni /\
    p !! "num_users"%string = Some nu /\
    p !! "num_items"%string = Some ni /\
    (forall k : string,
       k <> "num_users"%string -> k <> "num_items"%string ->
       p !! k = parse_flags L F !! k) /\
    exists u i, construct_model_calls (trace (final_store L F)) = [(u, i, p)].
Proof.
  intros Hin.
  destruct (run_ncf_stages L F)
    as (_ & _ & [(_ & Hs & _)
                | (pr' & p & nu & ni & _ & Hp & Hnu & Hni & _ & -> & _ & _
                   & Hc & _)]).
  - rewrite Hs in Hin. destruct Hin.
  - eexists. exists nu, ni. split; [exact Hp |]. split; [exact Hnu |].
    split; [exact Hni |].
    split; [rewrite lookup_insert_ne by done; apply lookup_insert_eq |].
    split; [apply lookup_insert_eq |].
    split.
    + intros k Hk1 Hk2. rewrite !lookup_insert_ne by done. reflexivity.
    + do 2 eexists. exact Hc.
Qed.

Lemma params_carry_num_users_and_items_witness :
  exists pr,
    In pr (start_calls
             (trace (final_store Sample.even_libs (Sample.flags false)))) /\
    exists p nu ni,
      params (final_store Sample.even_libs (Sample.flags false)) = Some p /\
      num_users (final_store Sample.even_libs (Sample.flags false)) = Some nu /\
      num_items (final_store Sample.even_libs (Sample.flags false)) = Some ni /\
      p !! "num_users"%string = Some nu /\
      p !! "num_items"%string = Some ni /\
      (forall k : string,
         k <> "num_users"%string -> k <> "num_items"%string ->
         p !! k = parse_flags Sample.even_libs (Sample.flags false) !! k) /\
      exists u i,
        construct_model_calls
          (trace (final_store Sample.even_libs (Sample.flags false)))
        = [(u, i, p)].
Proof.
  destruct sample_start_call as [pr Hpr]. exists pr.
  split; [exact Hpr |].
  exact (params_carry_num_users_and_items
           Sample.even_libs (Sample.flags false) pr Hpr).
Defined.




(** X9: the compiled model has the two inputs ["user_id"] and ["item_id"],
    each [int32] of shape [(1,)] with batch size [FLAGS.batch_size], the
    first dimension the loss reshapes to; and when the NeuMF network declares
    one logit per example, the compiled model declares width 2, the second
    dimension the loss reshapes [y_pred] to. *)
Theorem compiled_model_shape (L : Libs) (F : Flags) (c : CompileArgs L) :
  In c (compile_calls (trace (final_store L F))) ->
  map Keras.name (Keras.model_inputs (compile_model c))
  = ["user_id"%string; "item_id"%string] /\
  Forall (fun i => Keras.batch_size i = batch_size F /\
                   Keras.shape i = [1] /\
                   Keras.input_dtype i = Keras.int32)
         (Keras.model_inputs (compile_model c)) /\
  forall p,
    params (final_store L F) = Some p ->
    Keras.static_width
      (Keras.model_outputs
         (construct_model_keras L
            (Keras.Input [1] (batch_size F) "user_id" Keras.int32)
            (Keras.Input [1] (batch_size F) "item_id" Keras.int32) p))
    = 1%nat ->
    Keras.static_width (Keras.model_outputs (compile_model c)) = 2%nat.
Proof.
  intros Hin. destruct (compile_call_inv L F c Hin) as (p & Hp & _ & ->).
  cbn. split; [reflexivity |].
  split; [repeat constructor |].
  intros p' Hp' Hw. rewrite Hp in Hp'. injection Hp' as <-.
  unfold Keras.call. rewrite Hw. reflexivity.
Qed.

Lemma compiled_model_shape_witness :
  exists c p,
    In c (compile_calls
            (trace (final_store Sample.even_libs (Sample.flags false)))) /\
    params (final_store Sample.even_libs (Sample.flags false)) = Some p /\
    Keras.static_width
      (Keras.model_outputs
         (construct_model_keras Sample.even_libs
            (Keras.Input [1] 4 "user_id" Keras.int32)
            (Keras.Input [1] 4 "item_id" Keras.int32) p)) = 1%nat /\
    map Keras.name (Keras.model_inputs (compile_model c))
    = ["user_id"%string; "item_id"%string] /\
    Keras.static_width (Keras.model_outputs (compile_model c)) = 2%nat.
Proof.
  destruct sample_compile_call as [c Hc].
  destruct (params (final_store Sample.even_libs (Sample.flags false)))
    as [p |] eqn:Hp; [| vm_compute in Hp; discriminate].
  exists c, p. split; [exact Hc |]. split; [reflexivity |].
  split; [reflexivity |].
  destruct (compiled_model_shape Sample.even_libs (Sample.flags false) c Hc)
    as (Hn & _ & Hw).
  split; [exact Hn |].
  exact (Hw p Hp eq_refl).
Defined.

(** ** Where an invocation stops *)

(** X10: with [FLAGS.epochs_between_evals = 0] line 87 raises
    [ZeroDivisionError], though [total_training_cycle] is never used: the
    flags have been parsed (and the dataset downloaded, if asked), but no
    producer is built and nothing is started. *)
Theorem zero_epochs_between_evals_raises (L : Libs) (F : Flags) :
  epochs_between_evals F = 0 ->
  outcome L F = inl ZeroDivisionError /\
  params (final_store L F) = Some (parse_flags L F) /\
  total_training_cycle (final_store L F) = None /\
  producer (final_store L F) = None /\
  pipeline_calls (trace (final_store L F)) = [] /\
  dummy_constructor_calls (trace (final_store L F)) = [] /\
  milestones (trace (final_store L F)) = [] /\
  download_calls (trace (final_store L F))
  = (if download_if_missing F && negb (use_synthetic_data F)
     then [(dataset F, data_dir F)] else []).
Proof.
  intros He. unfold final_store, outcome.
  destruct (run_ncf L F empty_store) as [s o] eqn:E. revert E.
  unfold_run. rewrite He. cbn [Z.eqb]. reduce.
  destruct (download_if_missing F), (use_synthetic_data F), (seed F); reduce;
    intros [= <- <-]; cbn; repeat split.
Qed.

Lemma zero_epochs_between_evals_raises_witness :
  epochs_between_evals (SampleMain.flags_zero_evals false) = 0 /\
  outcome Sample.even_libs (SampleMain.flags_zero_evals false)
  = inl ZeroDivisionError /\
  producer (final_store Sample.even_libs (SampleMain.flags_zero_evals false))
  = None /\
  download_calls
    (trace (final_store Sample.even_libs (SampleMain.flags_zero_evals false)))
  = [("ml-1m"%string, "/tmp/movielens-data"%string)].
Proof.
  assert (He : epochs_between_evals (SampleMain.flags_zero_evals false) = 0)
    by reflexivity.
  split; [exact He |].
  destruct (zero_epochs_between_evals_raises
              Sample.even_libs (SampleMain.flags_zero_evals false) He)
    as (Ho & _ & _ & Hp & _ & _ & _ & Hd).
  split; [exact Ho |]. split; [exact Hp |]. exact Hd.
Defined.

(** The real-data path in the embedding, where every library call
    returns. *)
Lemma real_data_path (L : Libs) (F : Flags)
    (nd : NCFDataset L) (pr : Producer L) :
  use_synthetic_data F = false ->
  epochs_between_evals F <> 0 ->
  instantiate_pipeline L (dataset F) (data_dir F) None (ml_perf F)
    (bool_decide (seed F <> None)) (parse_flags L F) = (nd, pr) ->
  outcome L F
  = match parse_flags L F !! "batches_per_step"%string with
    | None => inl (KeyError "batches_per_step")
    | Some bps =>
        if bps =? 0 then inl ZeroDivisionError
        else if train_batches_per_epoch L pr mod bps =? 0
        then if eval_batches_per_epoch L pr mod bps =? 0
             then inr tt else inl AssertionError
        else inl AssertionError
    end /\
  (outcome L F <> inr tt ->
   producer (final_store L F) = Some pr /\
   length (pipeline_calls (trace (final_store L F))) = 1%nat /\
   milestones (trace (final_store L F)) = []).
Proof.
  intros Hs He Hp. apply Z.eqb_neq in He.
  unfold final_store, outcome.
  destruct (run_ncf L F empty_store) as [s o] eqn:E. revert E.
  unfold_run. rewrite !Hs, !He. reduce.
  destruct (download_if_missing F), (seed F); reduce.
  all: rewrite Hp; reduce.
  all: repeat exec_step.
  all: intros [= <- <-]; cbn.
  all: first [ solve [split; [reflexivity |];
                      intros H; try contradiction; repeat split]
             | exfalso; eqb_to_prop; simplify_eq; lia ].
Qed.


(** X11: on real data the checks of [run_ncf] come before the producer is
    started, in this order: a missing [batches_per_step] ([KeyError]), a zero
    one ([ZeroDivisionError]), the assertion on the training batches, the
    assertion on the evaluation batches.  If a statement of [run_ncf] raises,
    it is the first of these that fails, and the producer built by the
    pipeline has not been started nor a model compiled; if the run returns,
    none fails. *)
Theorem real_data_outcome (L : Libs) (F : Flags)
    (nd : NCFDataset L) (pr : Producer L) :
  use_synthetic_data F = false ->
  epochs_between_evals F <> 0 ->
  instantiate_pipeline L (dataset F) (data_dir F) None (ml_perf F)
    (bool_decide (seed F <> None)) (parse_flags L F) = (nd, pr) ->
  let first_failing_check :=
    match parse_flags L F !! "batches_per_step"%string with
    | None => Some (KeyError "batches_per_step")
    | Some bps =>
        if bps =? 0 then Some ZeroDivisionError
        else if train_batches_per_epoch L pr mod bps =? 0
        then if eval_batches_per_epoch L pr mod bps =? 0
             then None else Some AssertionError
        else Some AssertionError
    end in
  (forall e,
     outcome L F = inl e ->
     first_failing_check = Some e /\
     producer (final_store L F) = Some pr /\
     length (pipeline_calls (trace (final_store L F))) = 1%nat /\
     milestones (trace (final_store L F)) = []) /\
  (outcome L F = inr tt -> first_failing_check = None).
Proof.
  intros Hs He Hp first_failing_check. subst first_failing_check.
  destruct (real_data_path L F nd pr Hs He Hp) as [Ho Hstop].
  split.
  - intros e Hraise. split; [| apply Hstop; congruence].
    rewrite Hraise in Ho.
    destruct (parse_flags L F !! "batches_per_step"%string) as [bps |];
      [| congruence].
    destruct (bps =? 0); [congruence |].
    destruct (train_batches_per_epoch L pr mod bps =? 0); [| congruence].
    destruct (eval_batches_per_epoch L pr mod bps =? 0); congruence.
  - intros Hret. rewrite Hret in Ho.
    destruct (parse_flags L F !! "batches_per_step"%string) as [bps |];
      [| discriminate].
    destruct (bps =? 0); [discriminate |].
    destruct (train_batches_per_epoch L pr mod bps =? 0); [| discriminate].
    destruct (eval_batches_per_epoch L pr mod bps =? 0);
      [reflexivity | discriminate].
Qed.

Lemma real_data_outcome_witness :
  use_synthetic_data (Sample.flags false) = false /\
  epochs_between_evals (Sample.flags false) <> 0 /\
  instantiate_pipeline Sample.odd_libs "ml-1m" "/tmp/movielens-data" None
    false false (parse_flags Sample.odd_libs (Sample.flags false))
  = ((6040, 3706), (3, 4)) /\
  outcome Sample.odd_libs (Sample.flags false) = inl AssertionError /\
  producer (final_store Sample.odd_libs (Sample.flags false)) = Some (3, 4) /\
  length (pipeline_calls
            (trace (final_store Sample.odd_libs (Sample.flags false))))
  = 1%nat /\
  milestones (trace (final_store Sample.odd_libs (Sample.flags false))) = [].
Proof.
  assert (Hs : use_synthetic_data (Sample.flags false) = false)
    by reflexivity.
  assert (He : epochs_between_evals (Sample.flags false) <> 0)
    by (vm_compute; discriminate).
  assert (Ho : outcome Sample.odd_libs (Sample.flags false)
               = inl AssertionError) by (vm_compute; reflexivity).
  split; [exact Hs |]. split; [exact He |]. split; [reflexivity |].
  split; [exact Ho |].
  exact (proj2 (proj1 (real_data_outcome Sample.odd_libs (Sample.flags false)
                         (6040, 3706) (3, 4) Hs He eq_refl)
                  AssertionError Ho)).
Defined.

(** The synthetic path in the embedding, where every library call
    returns. *)
Lemma synthetic_path (L : Libs) (F : Flags) :
  use_synthetic_data F = true ->
  epochs_between_evals F <> 0 ->
  DATASET_TO_NUM_USERS_AND_ITEMS L !! dataset F <> None ->
  outcome L F
  = match parse_flags L F !! "batches_per_step"%string with
    | None => inl (KeyError "batches_per_step")
    | Some bps => if bps =? 0 then inl ZeroDivisionError else inr tt
    end /\
  (outcome L F <> inr tt ->
   milestones (trace (final_store L F)) = [started; compiled] /\
   start_calls (trace (final_store L F)) = [DummyConstructor L] /\
   fit_calls (trace (final_store L F)) = []).
Proof.
  intros Hs He Ht. apply Z.eqb_neq in He.
  unfold final_store, outcome.
  destruct (run_ncf L F empty_store) as [s o] eqn:E. revert E.
  unfold_run. rewrite !Hs, !He. reduce.
  destruct (DATASET_TO_NUM_USERS_AND_ITEMS L !! dataset F) as [[u i] |];
    [| contradiction].
  destruct (download_if_missing F), (seed F); reduce.
  all: rewrite !lookup_insert_ne by done.
  all: destruct (parse_flags L F !! "batches_per_step"%string) as [bps |];
    reduce; [destruct (bps =? 0); reduce |].
  all: intros [= <- <-]; cbn; split; try reflexivity.
  all: intros H; try contradiction; repeat split.
Qed.


(** X12: on synthetic data [params["batches_per_step"]] is first read on
    line 149.  If a statement of [run_ncf] raises there, it is [KeyError] for
    a missing key or [ZeroDivisionError] for a zero value, the producer has
    been started and the model compiled, and [fit] is not called; a run
    cannot return with the key missing or zero. *)
Theorem synthetic_batches_per_step_read_late (L : Libs) (F : Flags) :
  use_synthetic_data F = true ->
  epochs_between_evals F <> 0 ->
  DATASET_TO_NUM_USERS_AND_ITEMS L !! dataset F <> None ->
  (forall e,
     outcome L F = inl e ->
     ((e = KeyError "batches_per_step" /\
       parse_flags L F !! "batches_per_step"%string = None) \/
      (e = ZeroDivisionError /\
       parse_flags L F !! "batches_per_step"%string = Some 0)) /\
     milestones (trace (final_store L F)) = [started; compiled] /\
     start_calls (trace (final_store L F)) = [DummyConstructor L] /\
     fit_calls (trace (final_store L F)) = []) /\
  (outcome L F = inr tt ->
   exists bps,
     parse_flags L F !! "batches_per_step"%string = Some bps /\ bps <> 0).
Proof.
  intros Hs He Ht.
  destruct (synthetic_path L F Hs He Ht) as [Ho Hstop].
  split.
  - intros e Hraise. split; [| apply Hstop; congruence].
    rewrite Hraise in Ho.
    destruct (parse_flags L F !! "batches_per_step"%string) as [bps |].
    + destruct (bps =? 0) eqn:Hz; [| discriminate].
      apply Z.eqb_eq in Hz. right. split; congruence.
    + left. split; congruence.
  - intros Hret. rewrite Hret in Ho.
    destruct (parse_flags L F !! "batches_per_step"%string) as [bps |];
      [| discriminate].
    destruct (bps =? 0) eqn:Hz; [discriminate |].
    apply Z.eqb_neq in Hz. exists bps. split; [reflexivity | exact Hz].
Qed.

Lemma synthetic_batches_per_step_read_late_witness :
  use_synthetic_data (Sample.flags true) = true /\
  epochs_between_evals (Sample.flags true) <> 0 /\
  DATASET_TO_NUM_USERS_AND_ITEMS SampleMain.libs_without_batches_per_step
    !! dataset (Sample.flags true) <> None /\
  outcome SampleMain.libs_without_batches_per_step (Sample.flags true)
  = inl (KeyError "batches_per_step") /\
  milestones
    (trace (final_store SampleMain.libs_without_batches_per_step
              (Sample.flags true)))
  = [started; compiled] /\
  start_calls
    (trace (final_store SampleMain.libs_without_batches_per_step
              (Sample.flags true)))
  = [(6, 4)] /\
  fit_calls
    (trace (final_store SampleMain.libs_without_batches_per_step
              (Sample.flags true)))
  = [].
Proof.
  assert (Hs : use_synthetic_data (Sample.flags true) = true) by reflexivity.
  assert (He : epochs_between_evals (Sample.flags true) <> 0)
    by (vm_compute; discriminate).
  assert (Ht : DATASET_TO_NUM_USERS_AND_ITEMS
                 SampleMain.libs_without_batches_per_step
                 !! dataset (Sample.flags true) <> None)
    by (vm_compute; discriminate).
  assert (Ho : outcome SampleMain.libs_without_batches_per_step
                 (Sample.flags true)
               = inl (KeyError "batches_per_step"))
    by (vm_compute; reflexivity).
  split; [exact Hs |]. split; [exact He |]. split; [exact Ht |].
  split; [exact Ho |].
  exact (proj2 (proj1 (synthetic_batches_per_step_read_late
                         SampleMain.libs_without_batches_per_step
                         (Sample.flags true) Hs He Ht) _ Ho)).
Defined.

(** X13: on synthetic data a [FLAGS.dataset] that is not a key of
    [DATASET_TO_NUM_USERS_AND_ITEMS] raises [KeyError] on that name on line
    91: [DummyConstructor()] has been called, but the producer is not started
    and [num_users] is not assigned. *)
Theorem unknown_dataset_on_synthetic_data (L : Libs) (F : Flags) :
  use_synthetic_data F = true ->
  epochs_between_evals F <> 0 ->
  DATASET_TO_NUM_USERS_AND_ITEMS L !! dataset F = None ->
  outcome L F = inl (KeyError (dataset F)) /\
  producer (final_store L F) = Some (DummyConstructor L) /\
  num_users (final_store L F) = None /\
  dummy_constructor_calls (trace (final_store L F)) = [tt] /\
  milestones (trace (final_store L F)) = [].
Proof.
  intros Hs He Ht. apply Z.eqb_neq in He.
  unfold final_store, outcome.
  destruct (run_ncf L F empty_store) as [s o] eqn:E. revert E.
  unfold_run. rewrite !Hs, !He, !Ht. reduce.
  destruct (download_if_missing F), (seed F); reduce;
    intros [= <- <-]; cbn; repeat split.
Qed.

Lemma unknown_dataset_on_synthetic_data_witness :
  use_synthetic_data SampleMain.flags_unknown_dataset = true /\
  epochs_between_evals SampleMain.flags_unknown_dataset <> 0 /\
  DATASET_TO_NUM_USERS_AND_ITEMS Sample.even_libs
    !! dataset SampleMain.flags_unknown_dataset = None /\
  outcome Sample.even_libs SampleMain.flags_unknown_dataset
  = inl (KeyError "ml-100k") /\
  producer (final_store Sample.even_libs SampleMain.flags_unknown_dataset)
  = Some (6, 4) /\
  milestones
    (trace (final_store Sample.even_libs SampleMain.flags_unknown_dataset))
  = [].
Proof.
  assert (Hs : use_synthetic_data SampleMain.flags_unknown_dataset = true)
    by reflexivity.
  assert (He : epochs_between_evals SampleMain.flags_unknown_dataset <> 0)
    by (vm_compute; discriminate).
  assert (Ht : DATASET_TO_NUM_USERS_AND_ITEMS Sample.even_libs
                 !! dataset SampleMain.flags_unknown_dataset = None)
    by (vm_compute; reflexivity).
  split; [exact Hs |]. split; [exact He |]. split; [exact Ht |].
  destruct (unknown_dataset_on_synthetic_data
              Sample.even_libs SampleMain.flags_unknown_dataset Hs He Ht)
    as (Ho & Hp & _ & _ & Hm).
  split; [exact Ho |]. split; [exact Hp |]. exact Hm.
Defined.

(** X14: on synthetic data the value [SYNTHETIC_BATCHES_PER_EPOCH] given
    to [num_train_steps] on line 93 does not reach [fit]: line 149 assigns
    [producer.train_batches_per_epoch // params["batches_per_step"]] of the
    dummy producer, and that is the [steps_per_epoch] of [fit];
    [num_eval_steps] keeps the synthetic value. *)
Theorem synthetic_steps_come_from_the_producer (L : Libs) (F : Flags) :
  use_synthetic_data F = true ->
  outcome L F = inr tt ->
  exists c bps,
    parse_flags L F !! "batches_per_step"%string = Some bps /\
    bps <> 0 /\
    fit_calls (trace (final_store L F)) = [c] /\
    fit_steps_per_epoch c = train_batches_per_epoch L (DummyConstructor L) / bps /\
    num_train_steps (data_store L F) = Some (SYNTHETIC_BATCHES_PER_EPOCH L) /\
    num_train_steps (final_store L F)
    = Some (train_batches_per_epoch L (DummyConstructor L) / bps) /\
    num_eval_steps (final_store L F) = Some (SYNTHETIC_BATCHES_PER_EPOCH L).
Proof.
  intros Hs. unfold final_store, outcome, data_store.
  destruct (run_ncf_data L F empty_store) as [s1 o1] eqn:E1.
  destruct (run_ncf L F empty_store) as [s2 o2] eqn:E2.
  revert E1 E2. unfold_run. rewrite !Hs. reduce.
  destruct (epochs_between_evals F =? 0); reduce.
  all: destruct (DATASET_TO_NUM_USERS_AND_ITEMS L !! dataset F) as [[u i] |].
  all: destruct (download_if_missing F), (seed F); reduce.
  all: rewrite ?lookup_insert_ne by done.
  all: destruct (parse_flags L F !! "batches_per_step"%string) as [bps |];
    reduce; [destruct (bps =? 0) eqn:Hz; reduce |].
  all: intros [= <- <-] [= <- <-]; cbn; intros Ho; try discriminate.
  all: eexists; exists bps; apply Z.eqb_neq in Hz; repeat split; assumption.
Qed.

Lemma synthetic_steps_come_from_the_producer_witness :
  use_synthetic_data (Sample.flags true) = true /\
  outcome Sample.even_libs (Sample.flags true) = inr tt /\
  exists c bps,
    parse_flags Sample.even_libs (Sample.flags true)
      !! "batches_per_step"%string = Some bps /\
    bps <> 0 /\
    fit_calls (trace (final_store Sample.even_libs (Sample.flags true)))
    = [c] /\
    fit_steps_per_epoch c = 6 / bps /\
    num_train_steps (data_store Sample.even_libs (Sample.flags true))
    = Some 2000 /\
    num_train_steps (final_store Sample.even_libs (Sample.flags true))
    = Some (6 / bps) /\
    num_eval_steps (final_store Sample.even_libs (Sample.flags true))
    = Some 2000.
Proof.
  assert (Hs : use_synthetic_data (Sample.flags true) = true) by reflexivity.
  assert (Ho : outcome Sample.even_libs (Sample.flags true) = inr tt)
    by (vm_compute; reflexivity).
  split; [exact Hs |]. split; [exact Ho |].
  exact (synthetic_steps_come_from_the_producer
           Sample.even_libs (Sample.flags true) Hs Ho).
Defined.

(** ** [_logitfy] on networks of any width *)

Section AnyWidth.

Import Keras.

Variable f : spec_float -> spec_float.



End AnyWidth.






(** ** [main] *)

Section MainFacts.

Context (L : Libs) (C : Contexts).

Lemma main_unfold (F : Flags) (enable : bool) :
  main L C F enable
  = ([benchmark_context_enter L F; LOGGER_enter L enable;
      mlperf_helper_set_ncf_root L (ncf_root C)]
     ++ map (run_ncf_event L) (trace (final_store L F))
     ++ [LOGGER_exit L (raised (outcome L F));
         benchmark_context_exit L
           (match outcome L F with
            | inl e => if LOGGER_exit_answer C (Some e) then None else Some e
            | inr _ => None
            end)],
     match outcome L F with
     | inl e =>
         if LOGGER_exit_answer C (Some e) then inr tt
         else if benchmark_context_exit_answer C (Some e) then inr tt
              else inl e
     | inr _ => inr tt
     end).
Proof.
  unfold main, with_statement, outcome, final_store.
  destruct (run_ncf L F empty_store) as [s [e | u]]; cbn.
  - destruct (LOGGER_exit_answer C (Some e)); cbn;
      rewrite <- app_assoc; reflexivity.
  - rewrite <- app_assoc. reflexivity.
Qed.

(** X17: the calls of [main], in order: it enters the benchmark context,
    then the compliance logger, calls [set_ncf_root] on the directory of the
    file, makes the calls of [run_ncf], and then leaves the logger and the
    benchmark context, in this order, whether [run_ncf] returns or one of its
    statements raises.  The logger is told the exception of [run_ncf], the
    benchmark context is told it unless the logger has swallowed it. *)
Theorem main_exits_both_contexts (F : Flags) (enable : bool) :
  fst (main L C F enable)
  = [benchmark_context_enter L F;
     LOGGER_enter L enable;
     mlperf_helper_set_ncf_root L (ncf_root C)]
    ++ map (run_ncf_event L) (trace (final_store L F))
    ++ [LOGGER_exit L (raised (outcome L F));
        benchmark_context_exit L
          (match outcome L F with
           | inl e => if LOGGER_exit_answer C (Some e) then None else Some e
           | inr _ => None
           end)].
Proof. rewrite main_unfold. reflexivity. Qed.

(** X18: [main] raises an exception exactly when [run_ncf] raises it and
    neither context manager swallows it. *)
Theorem main_raises_iff (F : Flags) (enable : bool) (e : exn) :
  snd (main L C F enable) = inl e <->
  outcome L F = inl e /\
  LOGGER_exit_answer C (Some e) = false /\
  benchmark_context_exit_answer C (Some e) = false.
Proof.
  rewrite main_unfold. cbn [snd].
  destruct (outcome L F) as [e' | u].
  - destruct (LOGGER_exit_answer C (Some e')) eqn:Hl;
      [| destruct (benchmark_context_exit_answer C (Some e')) eqn:Hb].
    + split; [discriminate | intros ([= <-] & Hl' & _); congruence].
    + split; [discriminate | intros ([= <-] & _ & Hb'); congruence].
    + split; [intros [= <-]; repeat split; assumption | intros ([= <-] & _); reflexivity].
  - split; [discriminate | intros (H & _); discriminate].
Qed.

End MainFacts.

Lemma main_raises_iff_witness :
  outcome Sample.odd_libs (Sample.flags false) = inl AssertionError /\
  LOGGER_exit_answer SampleMain.strict_contexts (Some AssertionError) = false /\
  benchmark_context_exit_answer SampleMain.strict_contexts
    (Some AssertionError) = false /\
  snd (main Sample.odd_libs SampleMain.strict_contexts (Sample.flags false)
         true)
  = inl AssertionError.
Proof.
  assert (Ho : outcome Sample.odd_libs (Sample.flags false)
               = inl AssertionError) by (vm_compute; reflexivity).
  split; [exact Ho |]. split; [reflexivity |]. split; [reflexivity |].
  apply (proj2 (main_raises_iff Sample.odd_libs SampleMain.strict_contexts
                  (Sample.flags false) true AssertionError)).
  split; [exact Ho |]. split; reflexivity.
Defined.

(** The compliance logger of the sample swallows the assertion failure:
    [main] returns, and the benchmark context is told of no exception. *)
Example sample_main_swallows_assertion :
  snd (main Sample.odd_libs SampleMain.contexts (Sample.flags false) true)
  = inr tt /\
  context_events Sample.odd_libs
    (fst (main Sample.odd_libs SampleMain.contexts (Sample.flags false) true))
  = [benchmark_context_enter Sample.odd_libs (Sample.flags false);
     LOGGER_enter Sample.odd_libs true;
     LOGGER_exit Sample.odd_libs (Some AssertionError);
     benchmark_context_exit Sample.odd_libs None].
Proof. vm_compute. split; reflexivity. Qed.
